(** * Argyle ISD AI Guide: the ingestion pipeline of [app.py]

    A shallow embedding of [app.py] (text normalisation, page scraping,
    corpus construction, index construction, the top level) and of the
    launcher [run.py], with the properties its design document states.

    Python [str] values that come from scraped pages are sequences of
    Unicode code points; literals of the program (URLs, messages, tag
    names) are byte strings.  Effects (HTTP requests, Streamlit widgets,
    sleeping, the vector store) are threaded through an explicit state,
    and Python exceptions through a result type.  One run of the script
    is modelled, with Streamlit's caches empty: [st.cache_data] and
    [st.cache_resource] then call the functions they wrap. *)

From Stdlib Require Import List NArith ZArith QArith Bool Lia String Ascii.
From Stdlib Require Import DecimalString Sorted.
Import ListNotations.

Set Implicit Arguments.
Set Warnings "-register-all".

(** ** Python text *)

Module PyStr.

(** A character is its code point; a [str] is a list of them, so
    [len] is [length] and the slice [t[:n]] is [firstn n t]. *)
Definition char := N.
Definition str := list char.

Definition of_string (s : string) : str :=
  List.map N_of_ascii (list_ascii_of_string s).

Definition space : char := 32%N.

Definition in_range (lo hi c : N) : bool := ((lo <=? c) && (c <=? hi))%N.

(** [Py_UNICODE_ISSPACE]: what both [\s] (in a [str] pattern) and
    [str.strip()] call whitespace. *)
Definition isspace (c : char) : bool :=
  in_range 9 13 c || in_range 28 31 c || (c =? 32)%N
  || (c =? 133)%N || (c =? 160)%N || (c =? 5760)%N
  || in_range 8192 8202 c || (c =? 8232)%N || (c =? 8233)%N
  || (c =? 8239)%N || (c =? 8287)%N || (c =? 12288)%N.

Definition ascii_digit (c : char) : bool := in_range 48 57 c.
Definition ascii_letter (c : char) : bool :=
  in_range 65 90 c || in_range 97 122 c.

Definition underscore : char := 95%N.

(** The punctuation the second pattern lists: . , ! ? ; : ( ) - *)
Definition kept_punctuation (c : char) : bool :=
  existsb (N.eqb c) [46; 44; 33; 63; 59; 58; 40; 41; 45]%N.

(** The set the design document gives: [A-Za-z0-9\s.,!?;:()\-]. *)
Definition ascii_allowed (c : char) : bool :=
  ascii_letter c || ascii_digit c || isspace c || kept_punctuation c.

Fixpoint lstrip (t : str) : str :=
  match t with
  | [] => []
  | c :: t' => if isspace c then lstrip t' else t
  end.

Definition rstrip (t : str) : str :=
  fold_right
    (fun c acc =>
       match acc with
       | [] => if isspace c then [] else [c]
       | _ :: _ => c :: acc
       end)
    [] t.

(** [str.strip()] with no argument. *)
Definition strip (t : str) : str := rstrip (lstrip t).

End PyStr.

Import PyStr.

Local Open Scope string_scope.

(** ** Exceptions and results *)

(** The exceptions the program meets.  [except Exception] catches the
    instances of [Exception]; Streamlit's script control (raised by
    [st.rerun]), [KeyboardInterrupt] and [SystemExit] derive from
    [BaseException] only. *)
Inductive exn : Type :=
| RequestException (msg : string)
| HTTPError (msg : string)
| TypeError (msg : string)
| StreamlitAPIException (msg : string)
| OtherException (msg : string)
| RerunException
| KeyboardInterrupt
| SystemExit (code : Z).

Definition is_Exception (e : exn) : bool :=
  match e with
  | RequestException _ | HTTPError _ | TypeError _
  | StreamlitAPIException _ | OtherException _ => true
  | RerunException | KeyboardInterrupt | SystemExit _ => false
  end.

(** [str(e)] *)
Definition str_exn (e : exn) : string :=
  match e with
  | RequestException m | HTTPError m | TypeError m
  | StreamlitAPIException m | OtherException m => m
  | RerunException | KeyboardInterrupt => ""
  | SystemExit c => NilZero.string_of_int (Z.to_int c)
  end.

Inductive result (A : Type) : Type :=
| Ok (a : A)
| Raise (e : exn).
Arguments Ok {A} a.
Arguments Raise {A} e.

(** ** The outside world: HTTP, the HTML parser, Streamlit, the stores *)

(** What [requests.get(url, headers=..., timeout=...)] sends. *)
Record Request : Type := {
  req_method : string;
  req_url : string;
  req_headers : list (string * string);
  req_timeout : Z
}.

(** The response [requests.get] returns: the last one, after the
    redirects the library follows on its own.  [response_url] is
    [response.url], the address that response came from, which is the
    requested one only when nothing redirected. *)
Record Response : Type := {
  status_code : Z;
  reason : string;
  response_url : string;
  response_content : list Byte.byte      (* [response.content] *)
}.

(** [Response.raise_for_status] of the requests library: an [HTTPError]
    for a 4xx or 5xx status, nothing otherwise.  The message names
    [response.url]. *)
Definition raise_for_status (r : Response) : result unit :=
  let code := NilZero.string_of_int (Z.to_int (status_code r)) in
  if ((400 <=? status_code r) && (status_code r <? 500))%Z then
    Raise (HTTPError (code ++ " Client Error: " ++ reason r
                      ++ " for url: " ++ response_url r))
  else if ((500 <=? status_code r) && (status_code r <? 600))%Z then
    Raise (HTTPError (code ++ " Server Error: " ++ reason r
                      ++ " for url: " ++ response_url r))
  else Ok tt.

(** The parse tree BeautifulSoup builds.  [NavigableString] is text
    that [get_text] returns; [OtherString] stands for the strings it
    leaves out (comments, doctype and the like). *)
Inductive node : Type :=
| NavigableString (s : str)
| OtherString (s : str)
| Tag (name : string) (contents : list node).

(** The [BeautifulSoup] object: the top-level nodes of the document. *)
Definition soup := list node.

Module Soup.

Definition name_in (names : list string) (n : string) : bool :=
  existsb (String.eqb n) names.

(** [for t in soup(names): t.decompose()]: every element with one of
    the names leaves the tree, with all it contains. *)
Fixpoint decompose (names : list string) (n : node) : list node :=
  match n with
  | Tag nm cs =>
      if name_in names nm then []
      else [Tag nm (flat_map (decompose names) cs)]
  | _ => [n]
  end.

Definition decompose_all (names : list string) (s : soup) : soup :=
  flat_map (decompose names) s.

(** [find(name)] from one node: the first element of that name in
    document order, the node itself included. *)
Fixpoint find_from (name : string) (n : node) : option node :=
  match n with
  | Tag nm cs =>
      if String.eqb nm name then Some n
      else
        (fix first (l : list node) : option node :=
           match l with
           | [] => None
           | c :: l' =>
               match find_from name c with
               | Some t => Some t
               | None => first l'
               end
           end) cs
  | _ => None
  end.

Fixpoint find (name : string) (s : soup) : option node :=
  match s with
  | [] => None
  | c :: s' =>
      match find_from name c with
      | Some t => Some t
      | None => find name s'
      end
  end.

(** [get_text()]: the text strings below a node, joined in document
    order. *)
Fixpoint node_text (n : node) : str :=
  match n with
  | NavigableString s => s
  | OtherString _ => []
  | Tag _ cs => flat_map node_text cs
  end.

Definition get_text (s : soup) : str := flat_map node_text s.

End Soup.

(** The record [scrape_url] returns. *)
Record PageRecord : Type := {
  url : string;
  title : str;
  content : str
}.

(** [langchain.schema.Document] with the metadata the program gives it. *)
Record Metadata : Type := { source : string; doc_title : str }.
Record Document : Type := { page_content : str; metadata : Metadata }.

(** Streamlit calls, as the page shows them. *)
Inductive widget : Type :=
| st_set_page_config (page_title page_icon layout : string)
| st_title (body : string)
| st_header (body : string)
| st_markdown (body : string)
| st_info (body : string)
| st_text (body : string)
| st_warning (body : string)
| st_error (body : string)
| st_success (body : string)
| st_write (body : str)
| st_progress (value : Q)              (* [st.progress(v)]: a new bar *)
| progress_bar_progress (value : Q)    (* [progress_bar.progress(v)] *)
| st_button (label : string)
| st_text_input (label placeholder : string)
| st_spinner (body : string)
| st_sidebar (w : widget).

(** Handles of the LangChain objects; the libraries decide what is
    behind them. *)
Record Embeddings : Type := { embedding_model : string }.

Record ChromaCall : Type := {
  documents : list Document;
  embedding : Embeddings;
  collection_name : string;
  persist_directory : string
}.

Record Chroma : Type := { created_by : ChromaCall }.

Record ChatOpenAI : Type := {
  model_name : string;
  temperature : Q;
  max_tokens : Z
}.

Record RetrievalQA : Type := {
  llm : ChatOpenAI;
  chain_type : string;
  retriever_store : Chroma;
  retriever_k : Z;
  return_source_documents : bool
}.

Record QAResult : Type := {
  qa_result : str;
  source_documents : option (list Document)
}.

(** The file system, as far as the program looks at it: the paths that
    exist. *)
Definition disk := list string.

(** What the program does not decide: the network, the parser, the
    user, the providers behind LangChain. *)
Record World : Type := {
  (** how the [n]-th [requests.get] call of the run ends: with the
      last response, the library having followed the redirects on its
      own, or with an exception *)
  http : nat -> Request -> result Response;
  (** [BeautifulSoup(content, 'html.parser')] *)
  html_parser : list Byte.byte -> result soup;
  (** [OpenAIEmbeddings(model=...)] *)
  openai_embeddings : string -> result Embeddings;
  (** [Chroma.from_documents(...)]: embeds, persists, or fails; it may
      leave the disk in any state *)
  chroma_from_documents : ChromaCall -> disk -> result Chroma * disk;
  (** [ChatOpenAI(...)] *)
  chat_openai : ChatOpenAI -> result ChatOpenAI;
  (** [qa_chain.invoke({"query": q})], all of it: the question is
      embedded, the store searched and the model called by the
      providers' own clients; what they send is not recorded in the
      state *)
  qa_invoke : RetrievalQA -> string -> result QAResult;
  (** the user: the refresh button and the question typed *)
  refresh_clicked : bool;
  user_question : string
}.

Record State : Type := {
  ui : list widget;              (* what the page shows, oldest first *)
  http_log : list Request;       (* the [requests.get] calls made *)
  sleep_log : list Q;            (* [time.sleep] calls, in seconds *)
  chroma_log : list ChromaCall;  (* calls of [Chroma.from_documents] *)
  files : disk
}.

Definition initial_state (d : disk) : State :=
  {| ui := []; http_log := []; sleep_log := []; chroma_log := []; files := d |}.

(** A computation reads and changes the state and returns or raises;
    what it did before raising stays done. *)
Definition M (A : Type) : Type := State -> result A * State.

Definition ret {A} (a : A) : M A := fun s => (Ok a, s).
Definition raise {A} (e : exn) : M A := fun s => (Raise e, s).
Definition bind {A B} (m : M A) (k : A -> M B) : M B :=
  fun s =>
    match m s with
    | (Ok a, s') => k a s'
    | (Raise e, s') => (Raise e, s')
    end.
Definition lift {A} (r : result A) : M A := fun s => (r, s).

Notation "x <- c1 ;; c2" := (bind c1 (fun x => c2))
  (at level 61, c1 at next level, right associativity).
Notation "c1 ;; c2" := (bind c1 (fun _ => c2))
  (at level 61, right associativity).

(** [try: body  except Exception as e: handler(e)] *)
Definition try_except_Exception {A} (body : M A) (handler : exn -> M A) : M A :=
  fun s =>
    match body s with
    | (Ok a, s') => (Ok a, s')
    | (Raise e, s') => if is_Exception e then handler e s' else (Raise e, s')
    end.

Definition show (w : widget) : M unit :=
  fun s => (Ok tt, {| ui := ui s ++ [w]; http_log := http_log s;
                      sleep_log := sleep_log s; chroma_log := chroma_log s;
                      files := files s |}).

(** [progress_bar.progress(v)] with a float: Streamlit refuses a value
    outside [0.0, 1.0]. *)
Definition progress (v : Q) : M unit :=
  if Qle_bool 0 v && Qle_bool v 1 then show (progress_bar_progress v)
  else raise (StreamlitAPIException "Progress Value has invalid value [0.0, 1.0]").

Definition time_sleep (seconds : Q) : M unit :=
  fun s => (Ok tt, {| ui := ui s; http_log := http_log s;
                      sleep_log := sleep_log s ++ [seconds];
                      chroma_log := chroma_log s; files := files s |}).

(** ** The program [app.py] *)

Module App.

Section Pipeline.

(** [str.isalnum] above U+007F comes from the Unicode character
    database, which is not part of the repository: a parameter. *)
Variable unicode_isalnum : char -> bool.

Definition isalnum (c : char) : bool :=
  if (c <? 128)%N then ascii_letter c || ascii_digit c
  else unicode_isalnum c.

(** [\w] in a [str] pattern: alphanumeric or the underscore. *)
Definition isword (c : char) : bool := isalnum c || (c =? underscore)%N.

(** [re.sub(r'\s+', ' ', text)]: every maximal run of whitespace
    becomes one space.  [in_run] tells that the previous character
    was whitespace, already replaced. *)
Fixpoint sub_whitespace_runs (in_run : bool) (t : str) : str :=
  match t with
  | [] => []
  | c :: t' =>
      if isspace c
      then (if in_run then sub_whitespace_runs true t'
            else space :: sub_whitespace_runs true t')
      else c :: sub_whitespace_runs false t'
  end.

(** The class [[^\w\s.,!?;:()\-]] matches what [kept] rejects. *)
Definition kept (c : char) : bool :=
  isword c || isspace c || kept_punctuation c.

(** [re.sub(r'[^\w\s.,!?;:()\-]', '', text)] *)
Definition sub_special (t : str) : str := filter kept t.

Definition clean_text (text : str) : str :=
  let text := sub_whitespace_runs false text in
  let text := sub_special text in
  strip text.


(** The variables of the run: the world it meets. *)
Variable w : World.

Definition requests_get (url : string) (headers : list (string * string))
           (timeout : Z) : M Response :=
  fun s =>
    let req := {| req_method := "GET"; req_url := url;
                  req_headers := headers; req_timeout := timeout |} in
    (http w (List.length (http_log s)) req,
     {| ui := ui s; http_log := http_log s ++ [req];
        sleep_log := sleep_log s; chroma_log := chroma_log s;
        files := files s |}).

Definition user_agent : string :=
  "Mozilla/5.0 (Windows NT 10.0; Win64; x64) AppleWebKit/537.36".

Definition no_title : str := of_string "No Title".

(** The body of the [try] in [scrape_url]. *)
Definition scrape_url_try (url : string) : M (option PageRecord) :=
  let headers := [("User-Agent", user_agent)] in
  response <- requests_get url headers 10 ;;
  lift (raise_for_status response) ;;
  soup <- lift (html_parser w (response_content response)) ;;
  let soup := Soup.decompose_all ["script"; "style"] soup in
  let title := Soup.find "title" soup in
  let title_text :=
    match title with
    | Some t => Soup.node_text t
    | None => no_title
    end in
  let content := Soup.get_text soup in
  let content := clean_text content in
  ret (Some {| url := url; title := title_text;
               content := firstn 5000 content |}).

Definition scrape_url (url : string) : M (option PageRecord) :=
  try_except_Exception
    (scrape_url_try url)
    (fun e =>
       show (st_warning ("Failed to scrape " ++ url ++ ": " ++ str_exn e)) ;;
       ret None).

Definition get_argyle_urls : list string :=
  [ "https://www.argyleisd.com/";
    "https://www.argyleisd.com/about";
    "https://www.argyleisd.com/board-of-trustees";
    "https://www.argyleisd.com/schools";
    "https://www.argyleisd.com/departments";
    "https://www.argyleisd.com/calendars";
    "https://www.argyleisd.com/employment";
    "https://www.argyleisd.com/departments/transportation";
    "https://www.argyleisd.com/departments/human-resources";
    "https://www.argyleisd.com/all-news";
    "https://www.argyleisd.com/about/faqs";
    "https://www.argyleisd.com/future/bonds";
    "https://www.argyleisd.com/staff";
    "https://www.argyleisd.com/directory" ].

(** [if data and data["content"]]: a record (a non-empty dict) whose
    content is a non-empty string. *)
Definition usable (data : option PageRecord) : option PageRecord :=
  match data with
  | Some d => match content d with [] => None | _ :: _ => Some d end
  | None => None
  end.

Definition to_document (data : PageRecord) : Document :=
  {| page_content := content data;
     metadata := {| source := url data; doc_title := title data |} |}.

(** The loop of [load_argyle_data] from index [i] on; [total] is
    [len(urls)] of the whole list. *)
Fixpoint scrape_each (total i : nat) (urls : list string)
         (docs : list Document) : M (list Document) :=
  match urls with
  | [] => ret docs
  | url :: rest =>
      show (st_text ("📥 Scraping: " ++ url)) ;;
      data <- scrape_url url ;;
      let docs :=
        match usable data with
        | Some d => (docs ++ [to_document d])%list
        | None => docs
        end in
      progress (Z.of_nat (i + 1) # Pos.of_nat total) ;;
      time_sleep (1 # 2) ;;
      scrape_each total (i + 1) rest docs
  end.

Definition string_of_nat (n : nat) : string :=
  NilZero.string_of_uint (Nat.to_uint n).

(** The body of [load_argyle_data], for the list of URLs that
    [get_argyle_urls()] hands it. *)
Definition load_data (urls : list string) : M (list Document) :=
  show (st_info "🌐 Loading real data from Argyle ISD website...") ;;
  show (st_progress 0) ;;
  docs <- scrape_each (List.length urls) 0 urls [] ;;
  show (st_success ("✅ Successfully loaded " ++ string_of_nat (List.length docs)
                    ++ " documents from Argyle ISD")) ;;
  ret docs.

Definition load_argyle_data : M (list Document) :=
  load_data get_argyle_urls.

Definition chroma_from_documents_call (c : ChromaCall) : M Chroma :=
  fun s =>
    let (r, d) := chroma_from_documents w c (files s) in
    (r, {| ui := ui s; http_log := http_log s; sleep_log := sleep_log s;
           chroma_log := chroma_log s ++ [c]; files := d |}).

(** [get_vectorstore]; [None] is Python's [None]. *)
Definition get_vectorstore : M (option Chroma) :=
  show (st_info "🧠 Creating knowledge base...") ;;
  docs <- load_argyle_data ;;
  match docs with
  | [] =>
      show (st_error "❌ No documents loaded! Please check the network connection.") ;;
      ret None
  | _ :: _ =>
      embeddings <- lift (openai_embeddings w "text-embedding-3-small") ;;
      vectorstore <- chroma_from_documents_call
                       {| documents := docs;
                          embedding := embeddings;
                          collection_name := "argyleisd_real";
                          persist_directory := "./chroma_db_real" |} ;;
      show (st_success "✅ Knowledge base created successfully!") ;;
      ret (Some vectorstore)
  end.

Definition get_qa_chain (_vectorstore : option Chroma) : M (option RetrievalQA) :=
  match _vectorstore with
  | None => ret None
  | Some vs =>
      llm <- lift (chat_openai w {| model_name := "gpt-4o";
                                    temperature := 1 # 10;
                                    max_tokens := 500 |}) ;;
      ret (Some {| llm := llm;
                   chain_type := "stuff";
                   retriever_store := vs;
                   retriever_k := 5;
                   return_source_documents := true |})
  end.

Definition path_exists (p : string) : M bool :=
  fun s => (Ok (existsb (String.eqb p) (files s)), s).

(** A Python string or [None] used as a condition. *)
Definition truthy (v : option string) : bool :=
  match v with
  | Some (String _ _) => true
  | _ => false
  end.

(** The first part of [main]: page header and sidebar. *)
Definition main_header (OPENAI_API_KEY : option string) : M unit :=
  show (st_set_page_config "Argyle ISD AI Guide" "🎓" "wide") ;;
  show (st_title "🎓 Argyle ISD AI Guide") ;;
  show (st_markdown "### Ask any question about Argyle Independent School District") ;;
  show (st_sidebar (st_header "📊 System Status")) ;;
  db <- path_exists "./chroma_db_real" ;;
  show (st_sidebar (if db : bool then st_success "💾 Database: Ready"
                    else st_info "💾 Database: Building...")) ;;
  show (st_sidebar (if truthy OPENAI_API_KEY then st_success "🔑 OpenAI: Connected"
                    else st_error "🔑 OpenAI: Not configured")) ;;
  show (st_sidebar (st_button "🔄 Refresh Data")) ;;
  (* the caches are cleared and the script starts again *)
  if refresh_clicked w then raise RerunException else ret tt.

(** The [try] that initialises the system; [None] stands for the
    [return] statements that leave [main]. *)
Definition main_initialize : M (option (RetrievalQA * Chroma)) :=
  try_except_Exception
    (vectorstore <- get_vectorstore ;;
     match vectorstore with
     | None =>
         show (st_error "❌ Failed to initialize the knowledge base. Please check your network connection.") ;;
         ret None
     | Some vs =>
         qa_chain <- get_qa_chain (Some vs) ;;
         match qa_chain with
         | None =>
             show (st_error "❌ Failed to initialize the QA system.") ;;
             ret None
         | Some qa => ret (Some (qa, vs))
         end
     end)
    (fun e =>
       show (st_error ("❌ System initialization failed: " ++ str_exn e)) ;;
       ret None).

Fixpoint show_sources (i : nat) (docs : list Document) : M unit :=
  match docs with
  | [] => ret tt
  | doc :: rest =>
      let source_url := source (metadata doc) in
      show (st_markdown ("**" ++ string_of_nat (i + 1) ++ ".** ["
                         ++ source_url ++ "](" ++ source_url ++ ")")) ;;
      show_sources (i + 1) rest
  end.

(** The question form at the end of [main]. *)
Definition main_interface (qa_chain : RetrievalQA) : M unit :=
  show (st_markdown "### 💬 Ask your question:") ;;
  show (st_text_input "Enter your question about Argyle ISD:"
                      "e.g., 'Who is on the board of trustees?'") ;;
  if truthy (Some (user_question w)) then
    show (st_spinner "🔍 Searching for information...") ;;
    try_except_Exception
      (result <- lift (qa_invoke w qa_chain (user_question w)) ;;
       show (st_markdown "### 📝 Answer:") ;;
       show (st_write (qa_result result)) ;;
       match source_documents result with
       | Some (d :: ds) =>
           show (st_markdown "### 📚 Sources:") ;;
           show_sources 0 (firstn 3 (d :: ds))
       | _ => ret tt
       end)
      (fun e =>
         show (st_error ("❌ Error: " ++ str_exn e)) ;;
         show (st_info "💡 Please try rephrasing your question or check your API keys."))
  else ret tt.

(** [main]: the chain kept in [st.session_state] is handed to the
    question form as it is. *)
Definition main (OPENAI_API_KEY : option string) : M unit :=
  main_header OPENAI_API_KEY ;;
  ready <- main_initialize ;;
  match ready with
  | None => ret tt
  | Some (qa_chain, _) => main_interface qa_chain
  end.

(** ** The module level of [app.py] *)

(** [os.environ]: names with their values. *)
Definition environ := list (string * string).

Fixpoint getenv (env : environ) (key : string) : option string :=
  match env with
  | [] => None
  | (k, v) :: env' => if String.eqb k key then Some v else getenv env' key
  end.

(** [os.environ[key] = value]: the value has to be a [str]. *)
Definition environ_setitem (env : environ) (key : string)
           (value : option string) : result environ :=
  match value with
  | None => Raise (TypeError "str expected, not NoneType")
  | Some v => Ok ((key, v) :: filter (fun kv => negb (String.eqb (fst kv) key)) env)
  end.

(** Running the script: the two assignments at the top, then
    [main()]. *)
Definition app (env : environ) : M unit :=
  let OPENAI_API_KEY := getenv env "OPENAI_API_KEY" in
  lift (environ_setitem env "OPENAI_API_KEY" OPENAI_API_KEY) ;;
  main OPENAI_API_KEY.

End Pipeline.

End App.

Import App.

(** ** The launcher [run.py] *)

Module Launcher.

(** How [subprocess.run(["streamlit", "run", "app.py"], check=True)]
    ends.  [Failed] is any other exception it raises, such as
    [FileNotFoundError] when no [streamlit] is on the path: the script
    has no handler for it. *)
Inductive subprocess_end : Type :=
| Completed
| CalledProcessError (msg : string)
| Interrupted
| Failed (exc : string).

(** What a run leaves: the texts of the [print] calls that went
    through, oldest first, and the exit status. *)
Record Run : Type := { stdout : list string; exit_status : Z }.

Definition required_vars : list string :=
  ["FIRECRAWL_API_KEY"; "OPENAI_API_KEY"].

(** [load_dotenv()]: the variables of the [.env] file that the
    environment does not define yet are added. *)
Definition load_dotenv (dotenv : environ) (env : environ) : environ :=
  (env ++ filter (fun kv => match getenv env (fst kv) with
                            | None => true
                            | Some _ => false
                            end) dotenv)%list.

Definition newline : string := String (ascii_of_nat 10) EmptyString.

(** The script as it runs, from what is printed so far to what is
    printed then.  [None] is the end of the interpreter with status 1:
    [sys.exit(1)], or an exception that nothing catches. *)
Definition Script (A : Type) : Type := list string -> option A * list string.

Definition done {A} (a : A) : Script A := fun out => (Some a, out).

Definition exit_1 {A} : Script A := fun out => (None, out).

Definition and_then {A B} (m : Script A) (k : A -> Script B) : Script B :=
  fun out =>
    match m out with
    | (Some a, out') => k a out'
    | (None, out') => (None, out')
    end.

Declare Scope script_scope.
Notation "x <- c1 ;; c2" := (and_then c1 (fun x => c2))
  (at level 61, c1 at next level, right associativity) : script_scope.
Notation "c1 ;; c2" := (and_then c1 (fun _ => c2))
  (at level 61, right associativity) : script_scope.
Local Open Scope script_scope.

Section Stdout.

(** Whether [sys.stdout] can encode a text; [print] raises
    [UnicodeEncodeError] when it cannot, and no handler of the script
    catches that. *)
Variable encodes : string -> bool.

Definition print (text : string) : Script unit :=
  fun out => if encodes text then (Some tt, (out ++ [text])%list) else (None, out).

Fixpoint print_each (texts : list string) : Script unit :=
  match texts with
  | [] => done tt
  | text :: rest => print text ;; print_each rest
  end.

(** [dotenv] is [None] when python-dotenv is not installed. *)
Definition script (dotenv : option environ) (env : environ)
           (streamlit : environ -> subprocess_end) : Script unit :=
  env <- match dotenv with
         | Some vars =>
             let env := load_dotenv vars env in
             print "✅ Environment variables loaded from .env file" ;;
             done env
         | None =>
             print "💡 Install python-dotenv to load .env files automatically" ;;
             done env
         end ;;
  let missing_vars :=
    filter (fun var => negb (truthy (getenv env var))) required_vars in
  match missing_vars with
  | _ :: _ =>
      print "❌ Missing required environment variables:" ;;
      print_each (map (fun var => ("   - " ++ var)%string) missing_vars) ;;
      print (newline ++ "Please set these variables or create a .env file")%string ;;
      exit_1
  | [] =>
      print "🚀 Starting Argyle ISD AI Guide..." ;;
      print "   Visit: http://localhost:8501" ;;
      print "   Press Ctrl+C to stop" ;;
      print "" ;;
      match streamlit env with
      | Completed => done tt
      | Interrupted => print (newline ++ "👋 Goodbye!")%string
      | CalledProcessError e =>
          print ("❌ Error running app: " ++ e)%string ;;
          exit_1
      | Failed _ => exit_1
      end
  end.

Definition outcome (dotenv : option environ) (env : environ)
           (streamlit : environ -> subprocess_end) : Run :=
  let (r, out) := script dotenv env streamlit [] in
  {| stdout := out;
     exit_status := match r with Some _ => 0 | None => 1 end |}.

End Stdout.

(** The run on a standard output that encodes every text, as one in
    UTF-8 does. *)
Definition run (dotenv : option environ) (env : environ)
           (streamlit : environ -> subprocess_end) : Run :=
  outcome (fun _ => true) dotenv env streamlit.

End Launcher.

(** ** Sample worlds, to run the program on *)

(** A table that knows no alphanumeric character above U+007F: enough
    to run on ASCII text. *)
Definition ascii_only : char -> bool := fun _ => false.

(** A world whose network is [net] and whose parser reads every page
    as [page]; the providers always answer. *)
Definition answering (net : nat -> Request -> result Response) (page : soup) : World :=
  {| http := net;
     html_parser := fun _ => Ok page;
     openai_embeddings := fun m => Ok {| embedding_model := m |};
     chroma_from_documents :=
       fun c d => (Ok {| created_by := c |}, persist_directory c :: d);
     chat_openai := fun c => Ok c;
     qa_invoke := fun _ _ => Ok {| qa_result := []; source_documents := None |};
     refresh_clicked := false;
     user_question := "" |}.

(** The answer to [req] itself, nothing having redirected. *)
Definition respond (req : Request) (code : Z) (why : string) : Response :=
  {| status_code := code; reason := why;
     response_url := req_url req; response_content := [] |}.

Definition sample_page : soup :=
  [Tag "html"
     [Tag "head" [Tag "title" [NavigableString (of_string "Argyle ISD")];
                  Tag "style" [NavigableString (of_string "p { color: red }")]];
      Tag "body" [Tag "p" [NavigableString (of_string "snake_case  @ home")];
                  Tag "script" [NavigableString (of_string "var x = 1;")]]]].

Definition untitled_page : soup :=
  [Tag "html" [Tag "body" [Tag "p" [NavigableString (of_string "Bus routes")]]]].

Definition online : World :=
  answering (fun _ req => Ok (respond req 200 "OK")) sample_page.

Definition offline : World :=
  answering (fun _ _ => Raise (RequestException "Connection refused")) sample_page.

Definition not_found : World :=
  answering (fun _ req => Ok (respond req 404 "Not Found")) sample_page.

Definition untitled : World :=
  answering (fun _ req => Ok (respond req 200 "OK")) untitled_page.

Definition home : string := "https://www.argyleisd.com/".

(** What [scrape_url] makes of [sample_page]. *)
Definition sample_record : PageRecord :=
  {| url := home;
     title := of_string "Argyle ISD";
     content := of_string "Argyle ISDsnake_case  home" |}.

(** A network that answers the first request with 404, the second
    with the page, and fails from then on. *)
Definition flaky : World :=
  answering
    (fun n req =>
       match n with
       | 0%nat => Ok (respond req 404 "Not Found")
       | 1%nat => Ok (respond req 200 "OK")
       | _ => Raise (RequestException "Read timed out")
       end)
    sample_page.

Definition three_urls : list string :=
  ["https://www.argyleisd.com/";
   "https://www.argyleisd.com/about";
   "https://www.argyleisd.com/schools"].

(** A network on which the user interrupts the first request. *)
Definition interrupted : World :=
  answering (fun _ _ => Raise KeyboardInterrupt) sample_page.

(** A last response with status 300 passes [raise_for_status]: its
    body is parsed like any page. *)
Definition multiple_choices : World :=
  answering (fun _ req => Ok (respond req 300 "Multiple Choices")) sample_page.

(** The address asked for has moved, and the address it moved to is
    missing: the library follows the redirect and hands back the 404
    of the second address. *)
Definition missing : string := "https://www.argyleisd.com/missing".

Definition moved : World :=
  answering
    (fun _ _ => Ok {| status_code := 404; reason := "Not Found";
                      response_url := missing; response_content := [] |})
    sample_page.

(** ** Notions the properties are stated with *)

Local Open Scope list_scope.

Section NodeInduction.

Variable P : node -> Prop.
Hypothesis P_text : forall s, P (NavigableString s).
Hypothesis P_other : forall s, P (OtherString s).
Hypothesis P_tag : forall nm cs, Forall P cs -> P (Tag nm cs).

(** Induction on a tree, with the hypothesis for every child. *)
Fixpoint node_tree_ind (n : node) : P n :=
  match n with
  | NavigableString s => P_text s
  | OtherString s => P_other s
  | Tag nm cs =>
      P_tag nm
        ((fix children (l : list node) : Forall P l :=
            match l with
            | [] => Forall_nil P
            | c :: l' => Forall_cons c (node_tree_ind c) (children l')
            end) cs)
  end.

End NodeInduction.

(** The shape of parse trees. *)
Module SoupShape.

Import Soup.

(** A string node, not an element. *)
Definition is_string (n : node) : bool :=
  match n with
  | Tag _ _ => false
  | _ => true
  end.

(** What Python's [html.parser] builds: the content of a [script] or
    [style] element is raw text, never an element. *)
Fixpoint raw_text_inside (names : list string) (n : node) : bool :=
  match n with
  | Tag nm cs =>
      (if name_in names nm then forallb is_string cs else true)
      && forallb (raw_text_inside names) cs
  | _ => true
  end.

Definition parsed_by_html_parser (page : soup) : bool :=
  forallb (raw_text_inside ["script"; "style"]) page.


(** No element called one of [names] in the tree of [n], itself
    included. *)
Fixpoint free_of (names : list string) (n : node) : bool :=
  match n with
  | Tag nm cs => negb (name_in names nm) && forallb (free_of names) cs
  | _ => true
  end.

End SoupShape.

Definition shown (wd : widget) (s : State) : State :=
  {| ui := ui s ++ [wd]; http_log := http_log s; sleep_log := sleep_log s;
     chroma_log := chroma_log s; files := files s |}.

Definition sent (req : Request) (s : State) : State :=
  {| ui := ui s; http_log := http_log s ++ [req]; sleep_log := sleep_log s;
     chroma_log := chroma_log s; files := files s |}.

Definition slept (seconds : Q) (s : State) : State :=
  {| ui := ui s; http_log := http_log s; sleep_log := sleep_log s ++ [seconds];
     chroma_log := chroma_log s; files := files s |}.

(** The request [scrape_url] sends for a URL. *)
Definition request_for (u : string) : Request :=
  {| req_method := "GET"; req_url := u;
     req_headers := [("User-Agent", user_agent)]; req_timeout := 10 |}.

(** The progress values a page shows, oldest first. *)
Fixpoint progress_values (l : list widget) : list Q :=
  match l with
  | [] => []
  | progress_bar_progress v :: l' => v :: progress_values l'
  | _ :: l' => progress_values l'
  end.

(** The lines of the scraping loop on the page: the URL announced and
    the progress shown. *)
Definition is_mark (wd : widget) : bool :=
  match wd with
  | st_text _ | progress_bar_progress _ => true
  | _ => false
  end.

Definition marks (l : list widget) : list widget := filter is_mark l.

Definition no_documents : widget :=
  st_error "❌ No documents loaded! Please check the network connection.".

Definition not_initialized : widget :=
  st_error "❌ Failed to initialize the knowledge base. Please check your network connection.".

(** [k] of [total], as [progress_bar.progress] gets it. *)
Definition fraction (total k : nat) : Q := Z.of_nat k # Pos.of_nat total.

(** What the loop writes for the [k]-th URL. *)
Definition loop_lines (total : nat) (ku : nat * string) : list widget :=
  [st_text ("📥 Scraping: " ++ snd ku)%string;
   progress_bar_progress (fraction total (fst ku))].

Definition warned (u : string) (e : exn) (s : State) : State :=
  shown (st_warning ("Failed to scrape " ++ u ++ ": " ++ str_exn e)%string) s.


Module Spec.

Section Notions.

Variable unicode_isalnum : char -> bool.
Variable w : World.

Local Abbreviation kept := (kept unicode_isalnum).
Local Abbreviation isword := (isword unicode_isalnum).
Local Abbreviation clean_text := (clean_text unicode_isalnum).
Local Abbreviation collapse := sub_whitespace_runs.

(** What a character of cleaned text can be: a word character, the
    space, or listed punctuation. *)
Definition clean_char (c : char) : bool :=
  isword c || (c =? space)%N || kept_punctuation c.

(** Text in normal form: single spaces only, none at either end, no
    character the second substitution deletes. *)
Definition tidy (u : str) : Prop :=
  collapse false u = u /\ strip u = u /\ Forall (fun c => kept c = true) u.

(** What [scrape_url] makes of a parsed page. *)
Definition page_record (u : string) (page : soup) : PageRecord :=
  let page := Soup.decompose_all ["script"; "style"] page in
  {| url := u;
     title := match Soup.find "title" page with
              | Some t => Soup.node_text t
              | None => no_title
              end;
     content := firstn 5000 (clean_text (Soup.get_text page)) |}.

(** The world raises instances of [Exception] only: network errors,
    timeouts, parser errors; no interrupt, no exit. *)
Definition raises_only_Exception : Prop :=
  (forall n req e, http w n req = Raise e -> is_Exception e = true) /\
  (forall b e, html_parser w b = Raise e -> is_Exception e = true).

(** The ways a fetch fails before a page is there. *)
Inductive fetch_failure (n : nat) (u : string) : Prop :=
| network_error (e : exn) :
    http w n (request_for u) = Raise e -> fetch_failure n u
| error_status (resp : Response) :
    http w n (request_for u) = Ok resp ->
    (400 <= status_code resp < 600)%Z -> fetch_failure n u
| parse_error (resp : Response) (e : exn) :
    http w n (request_for u) = Ok resp ->
    html_parser w (response_content resp) = Raise e -> fetch_failure n u.

(** What the [n]-th request of the run, made for [u], brings back:
    a record, or nothing when the fetch fails. *)
Definition attempt (n : nat) (u : string) : option PageRecord :=
  match http w n (request_for u) with
  | Raise _ => None
  | Ok resp =>
      match raise_for_status resp with
      | Raise _ => None
      | Ok _ =>
          match html_parser w (response_content resp) with
          | Raise _ => None
          | Ok page => Some (page_record u page)
          end
      end
  end.

(** The documents one URL adds to the corpus: its page when the fetch
    brought one with text, nothing otherwise. *)
Definition contribution (n : nat) (u : string) : list Document :=
  match usable (attempt n u) with
  | Some d => [to_document d]
  | None => []
  end.

(** The corpus of a list of URLs whose first request is the [n]-th of
    the run. *)
Fixpoint corpus (n : nat) (urls : list string) : list Document :=
  match urls with
  | [] => []
  | u :: rest => contribution n u ++ corpus (S n) rest
  end.

(** A URL fails when its fetch fails or its page has no text left. *)
Definition url_fails (n : nat) (u : string) : Prop :=
  fetch_failure n u \/ (exists d, attempt n u = Some d /\ content d = []).

(** What a document of the corpus looks like. *)
Definition well_formed_document (urls : list string) (d : Document) : Prop :=
  (0 < List.length (page_content d) <= 5000)%nat /\
  Forall (fun c => clean_char c = true) (page_content d) /\
  In (source (metadata d)) urls.

End Notions.

End Spec.

Import Spec.

(** ** Notions for the rest of the program *)

(** The text of a page outside the elements called [names]. *)
Module Visible.

Import Soup.

Fixpoint node_visible_text (names : list string) (n : node) : str :=
  match n with
  | NavigableString s => s
  | OtherString _ => []
  | Tag nm cs =>
      if name_in names nm then []
      else flat_map (node_visible_text names) cs
  end.

Definition visible_text (names : list string) (page : soup) : str :=
  flat_map (node_visible_text names) page.

End Visible.

(** A computation keeps a relation between the state it starts from and
    the state it leaves, whether it returns or raises. *)
Definition keeps (R : State -> State -> Prop) {A} (m : M A) : Prop :=
  forall s, R s (snd (m s)).

(** What a computation raises is no instance of [Exception]. *)
Definition raises_no_Exception {A} (m : M A) : Prop :=
  forall s e s', m s = (Raise e, s') -> is_Exception e = false.

(** Only the page changes: no [requests.get], no pause, no
    [Chroma.from_documents], the disk as it was. *)
Definition quiet (s s' : State) : Prop :=
  http_log s' = http_log s /\ sleep_log s' = sleep_log s /\
  chroma_log s' = chroma_log s /\ files s' = files s.

(** The page only gets longer. *)
Definition page_grows (s s' : State) : Prop :=
  exists ws, ui s' = ui s ++ ws.

(** No [requests.get] call is made. *)
Definition http_untouched (s s' : State) : Prop := http_log s' = http_log s.

(** The [requests.get] calls made are those of [scrape_url] for the
    first URLs of the list, in its order. *)
Definition sends_prefix (urls : list string) (s s' : State) : Prop :=
  exists k, http_log s' = http_log s ++ map request_for (firstn k urls).

(** A call of [Chroma.from_documents] as [get_vectorstore] makes it. *)
Definition corpus_call (c : ChromaCall) : Prop :=
  (0 < List.length (documents c))%nat /\
  collection_name c = "argyleisd_real" /\
  persist_directory c = "./chroma_db_real".

(** The vector store is not called and the disk is as before. *)
Definition store_untouched (s s' : State) : Prop :=
  chroma_log s' = chroma_log s /\ files s' = files s.

(** The vector store is left alone, or called once, for a corpus. *)
Definition at_most_one_corpus_call (s s' : State) : Prop :=
  store_untouched s s' \/
  exists c, chroma_log s' = chroma_log s ++ [c] /\ corpus_call c.

(** The source lines of an answer: [i] is the index of the first. *)
Fixpoint source_lines (i : nat) (docs : list Document) : list widget :=
  match docs with
  | [] => []
  | doc :: rest =>
      st_markdown ("**" ++ string_of_nat (i + 1) ++ ".** ["
                   ++ source (metadata doc) ++ "]("
                   ++ source (metadata doc) ++ ")")%string
      :: source_lines (i + 1) rest
  end.

Module Page.

Section Lines.

Variable unicode_isalnum : char -> bool.
Variable w : World.

(** A character that cleaning keeps as it is: kept by the second
    substitution and no whitespace. *)
Definition solid (c : char) : bool :=
  kept unicode_isalnum c && negb (isspace c).

(** The exception that ends the [n]-th fetch, made for [u], if one
    does. *)
Definition failure (n : nat) (u : string) : option exn :=
  match http w n (request_for u) with
  | Raise e => Some e
  | Ok resp =>
      match raise_for_status resp with
      | Raise e => Some e
      | Ok _ =>
          match html_parser w (response_content resp) with
          | Raise e => Some e
          | Ok _ => None
          end
      end
  end.

(** What the loop of [load_argyle_data] writes for the URL [u], the
    [k]-th of [total], fetched by the [n]-th request. *)
Definition url_lines (total k n : nat) (u : string) : list widget :=
  [st_text ("📥 Scraping: " ++ u)%string]
  ++ match failure n u with
     | Some e => [st_warning ("Failed to scrape " ++ u ++ ": " ++ str_exn e)%string]
     | None => []
     end
  ++ [progress_bar_progress (fraction total k)].

Fixpoint loop_page (total i n : nat) (urls : list string) : list widget :=
  match urls with
  | [] => []
  | u :: rest => url_lines total (i + 1) n u ++ loop_page total (i + 1) (S n) rest
  end.

(** All that [load_argyle_data] writes, for [urls] fetched from the
    [n]-th request on, when it returns [docs]. *)
Definition load_page (n : nat) (urls : list string) (docs : list Document)
  : list widget :=
  [st_info "🌐 Loading real data from Argyle ISD website..."; st_progress 0]
  ++ loop_page (List.length urls) 0 n urls
  ++ [st_success ("✅ Successfully loaded " ++ string_of_nat (List.length docs)
                  ++ " documents from Argyle ISD")%string].

End Lines.

End Page.

(** The environment the launcher checks: [os.environ] after
    [load_dotenv()], when python-dotenv is there. *)
Definition effective_env (dotenv : option environ) (env : environ) : environ :=
  match dotenv with
  | Some vars => Launcher.load_dotenv vars env
  | None => env
  end.

(** The first thing the script prints. *)
Definition dotenv_line (dotenv : option environ) : string :=
  match dotenv with
  | Some _ => "✅ Environment variables loaded from .env file"
  | None => "💡 Install python-dotenv to load .env files automatically"
  end.

(** What the launcher prints when it starts the application and
    Streamlit ends with [ended]. *)
Definition started_lines (dotenv : option environ)
           (ended : Launcher.subprocess_end) : list string :=
  [dotenv_line dotenv;
   "🚀 Starting Argyle ISD AI Guide...";
   "   Visit: http://localhost:8501";
   "   Press Ctrl+C to stop";
   ""]
  ++ match ended with
     | Launcher.Completed => []
     | Launcher.Interrupted => [(Launcher.newline ++ "👋 Goodbye!")%string]
     | Launcher.CalledProcessError e => [("❌ Error running app: " ++ e)%string]
     | Launcher.Failed _ => []
     end.

(** The exit status of the launcher once Streamlit has ended with
    [ended]. *)
Definition started_status (ended : Launcher.subprocess_end) : Z :=
  match ended with
  | Launcher.Completed => 0
  | Launcher.Interrupted => 0
  | Launcher.CalledProcessError _ => 1
  | Launcher.Failed _ => 1
  end.

(** The providers refuse to set up the embeddings. *)
Definition no_credentials : World :=
  {| http := fun _ req => Ok (respond req 200 "OK");
     html_parser := fun _ => Ok sample_page;
     openai_embeddings :=
       fun _ => Raise (OtherException "The api_key client option must be set");
     chroma_from_documents :=
       fun c d => (Ok {| created_by := c |}, persist_directory c :: d);
     chat_openai := fun c => Ok c;
     qa_invoke := fun _ _ => Ok {| qa_result := []; source_documents := None |};
     refresh_clicked := false;
     user_question := "" |}.

(** The user clicks the refresh button. *)
Definition refreshing : World :=
  {| http := fun _ req => Ok (respond req 200 "OK");
     html_parser := fun _ => Ok sample_page;
     openai_embeddings := fun m => Ok {| embedding_model := m |};
     chroma_from_documents :=
       fun c d => (Ok {| created_by := c |}, persist_directory c :: d);
     chat_openai := fun c => Ok c;
     qa_invoke := fun _ _ => Ok {| qa_result := []; source_documents := None |};
     refresh_clicked := true;
     user_question := "" |}.

Definition document_of (u : string) : Document :=
  {| page_content := of_string "The board meets monthly.";
     metadata := {| source := u; doc_title := of_string "Argyle ISD" |} |}.

(** Five documents, as a retriever with [k = 5] returns them. *)
Definition five_documents : list Document :=
  map document_of
      ["https://www.argyleisd.com/board-of-trustees";
       "https://www.argyleisd.com/about";
       "https://www.argyleisd.com/";
       "https://www.argyleisd.com/staff";
       "https://www.argyleisd.com/directory"].

(** The user asks a question and the chain answers with five sources. *)
Definition asking : World :=
  {| http := fun _ req => Ok (respond req 200 "OK");
     html_parser := fun _ => Ok sample_page;
     openai_embeddings := fun m => Ok {| embedding_model := m |};
     chroma_from_documents :=
       fun c d => (Ok {| created_by := c |}, persist_directory c :: d);
     chat_openai := fun c => Ok c;
     qa_invoke :=
       fun _ _ => Ok {| qa_result := of_string "The board meets monthly.";
                        source_documents := Some five_documents |};
     refresh_clicked := false;
     user_question := "When does the board meet?" |}.

(** The user asks a question and the model call fails. *)
Definition rate_limited : World :=
  {| http := fun _ req => Ok (respond req 200 "OK");
     html_parser := fun _ => Ok sample_page;
     openai_embeddings := fun m => Ok {| embedding_model := m |};
     chroma_from_documents :=
       fun c d => (Ok {| created_by := c |}, persist_directory c :: d);
     chat_openai := fun c => Ok c;
     qa_invoke := fun _ _ => Raise (OtherException "Rate limit reached");
     refresh_clicked := false;
     user_question := "When does the board meet?" |}.

(** A chain as [get_qa_chain] makes it over an empty store. *)
Definition sample_chain : RetrievalQA :=
  {| llm := {| model_name := "gpt-4o"; temperature := 1 # 10; max_tokens := 500 |};
     chain_type := "stuff";
     retriever_store :=
       {| created_by := {| documents := five_documents;
                           embedding := {| embedding_model := "text-embedding-3-small" |};
                           collection_name := "argyleisd_real";
                           persist_directory := "./chroma_db_real" |} |};
     retriever_k := 5;
     return_source_documents := true |}.

(** ** Text normalisation *)

Section CleanText.

Variable unicode_isalnum : char -> bool.

Local Abbreviation isword := (isword unicode_isalnum).
Local Abbreviation kept := (kept unicode_isalnum).
Local Abbreviation clean_text := (clean_text unicode_isalnum).
Local Abbreviation clean_char := (clean_char unicode_isalnum).
Local Abbreviation tidy := (tidy unicode_isalnum).

Lemma sub_whitespace_runs_In (b : bool) (t : str) (c : char) :
  In c (sub_whitespace_runs b t) -> isspace c = true -> c = space.
Proof.
  revert b; induction t as [|x t IH]; intros b; simpl; [tauto|].
  destruct (isspace x) eqn:Hx.
  - destruct b; simpl; intros Hin Hc.
    + eapply IH; eauto.
    + destruct Hin as [<-|Hin]; [reflexivity | eapply IH; eauto].
  - simpl; intros [<-|Hin] Hc; [congruence | eapply IH; eauto].
Qed.

Lemma lstrip_In (t : str) (c : char) : In c (lstrip t) -> In c t.
Proof.
  induction t as [|x t IH]; simpl; [tauto|].
  destruct (isspace x); simpl; tauto.
Qed.

Lemma rstrip_In (t : str) (c : char) : In c (rstrip t) -> In c t.
Proof.
  unfold rstrip; induction t as [|x t IH]; simpl; [tauto|].
  destruct (fold_right _ [] t) as [|y r] eqn:E.
  - destruct (isspace x); simpl; tauto.
  - simpl; intros [->|H]; [now left | right; apply IH; exact H].
Qed.

Lemma strip_In (t : str) (c : char) : In c (strip t) -> In c t.
Proof. intros H; apply lstrip_In, rstrip_In, H. Qed.

Lemma clean_text_chars (t : str) :
  Forall (fun c => clean_char c = true) (clean_text t).
Proof.
  apply Forall_forall; intros c Hc.
  apply strip_In in Hc. unfold sub_special in Hc.
  apply filter_In in Hc; destruct Hc as [Hin Hk].
  unfold Spec.clean_char. unfold App.kept in Hk.
  destruct (isspace c) eqn:Hs.
  - apply sub_whitespace_runs_In in Hin; [subst c | exact Hs].
    now rewrite N.eqb_refl, orb_true_r.
  - rewrite orb_false_r in Hk.
    apply orb_true_iff in Hk; destruct Hk as [-> | ->];
      [reflexivity | apply orb_true_r].
Qed.

(** *** When a second pass changes nothing *)

Local Abbreviation collapse := sub_whitespace_runs.

Lemma rstrip_cons (x : char) (u : str) :
  rstrip (x :: u) =
  match rstrip u with
  | [] => if isspace x then [] else [x]
  | _ :: _ => x :: rstrip u
  end.
Proof. reflexivity. Qed.

Lemma collapse_length (b : bool) (t : str) :
  (List.length (collapse b t) <= List.length t)%nat.
Proof.
  revert b; induction t as [|x t IH]; intros b; simpl; [lia|].
  pose proof (IH true). pose proof (IH false).
  destruct (isspace x); [destruct b|]; simpl; lia.
Qed.

(** Collapsing is done after one pass. *)
Lemma collapse_collapse (t : str) :
  forall b b' : bool, (b' = true -> b = true) ->
                      collapse b' (collapse b t) = collapse b t.
Proof.
  induction t as [|x t IH]; intros b b' Hb; simpl; [reflexivity|].
  destruct (isspace x) eqn:Hx.
  - destruct b.
    + apply IH; auto.
    + destruct b'; [specialize (Hb eq_refl); discriminate|].
      simpl. rewrite IH by auto. reflexivity.
  - simpl. rewrite Hx, IH by discriminate. reflexivity.
Qed.

Lemma collapse_In (b : bool) (t : str) (c : char) :
  In c (collapse b t) -> In c t \/ c = space.
Proof.
  revert b; induction t as [|x t IH]; intros b; simpl; [tauto|].
  destruct (isspace x).
  - destruct b; simpl; intros H.
    + apply IH in H. tauto.
    + destruct H as [<-|H]; [tauto | apply IH in H; tauto].
  - simpl. intros [<-|H]; [tauto | apply IH in H; tauto].
Qed.

Lemma filter_all {A} (f : A -> bool) (l : list A) :
  Forall (fun x => f x = true) l -> filter f l = l.
Proof.
  induction 1 as [|x l Hx Hl IH]; simpl; [reflexivity|].
  rewrite Hx, IH. reflexivity.
Qed.

Lemma kept_space : kept space = true.
Proof. unfold App.kept. now rewrite orb_true_r. Qed.

Lemma collapse_kept (b : bool) (t : str) :
  Forall (fun c => kept c = true) t ->
  Forall (fun c => kept c = true) (collapse b t).
Proof.
  intros H. apply Forall_forall. intros c Hc.
  apply collapse_In in Hc. destruct Hc as [Hc | ->]; [|apply kept_space].
  rewrite Forall_forall in H. apply H, Hc.
Qed.

(** A text that the collapse leaves alone after a whitespace does not
    start with one. *)
Lemma collapse_true_fixed (u : str) :
  collapse true u = u -> lstrip u = u /\ collapse false u = u.
Proof.
  destruct u as [|y u]; [auto|]. simpl.
  destruct (isspace y) eqn:Hy.
  - intros H. pose proof (collapse_length true u) as Hl.
    rewrite H in Hl. simpl in Hl. lia.
  - auto.
Qed.

Lemma collapse_false_cons (x : char) (u : str) :
  collapse false (x :: u) = x :: u ->
  collapse false u = u /\ (isspace x = true -> collapse true u = u).
Proof.
  simpl. destruct (isspace x).
  - intros [= _ H]. split; [apply collapse_true_fixed, H | auto].
  - intros [= H]. split; [exact H | discriminate].
Qed.

Lemma lstrip_collapsed (u : str) :
  collapse false u = u -> collapse false (lstrip u) = lstrip u.
Proof.
  destruct u as [|x u]; [auto|]. intros H.
  destruct (collapse_false_cons H) as [Hu Hx].
  simpl. destruct (isspace x); [|exact H].
  destruct (collapse_true_fixed (Hx eq_refl)) as [-> ?]. exact Hu.
Qed.

Lemma rstrip_head (u : str) (y : char) (r : str) :
  rstrip u = y :: r -> exists u', u = y :: u'.
Proof.
  destruct u as [|x u]; [discriminate|]. rewrite rstrip_cons.
  destruct (rstrip u); [destruct (isspace x)|]; intros [= <- _]; eauto.
Qed.

Lemma rstrip_collapsed (u : str) :
  collapse false u = u -> collapse false (rstrip u) = rstrip u.
Proof.
  induction u as [|x u IH]; [auto|]. intros H.
  destruct (collapse_false_cons H) as [Hu Hx]. specialize (IH Hu).
  rewrite rstrip_cons. destruct (rstrip u) as [|y r] eqn:Hr.
  - destruct (isspace x) eqn:E; [reflexivity | simpl; now rewrite E].
  - destruct (rstrip_head _ Hr) as [u' ->].
    assert (Hy : isspace x = true -> isspace y = false).
    { intros E. specialize (Hx E). simpl in Hx.
      destruct (isspace y); [|reflexivity].
      pose proof (collapse_length true u') as Hl.
      rewrite Hx in Hl. simpl in Hl. lia. }
    simpl in H, IH |- *. destruct (isspace x) eqn:E.
    + rewrite (Hy eq_refl) in *. injection H as Hsp _.
      rewrite Hsp. f_equal. exact IH.
    + f_equal. exact IH.
Qed.

Lemma rstrip_rstrip (u : str) : rstrip (rstrip u) = rstrip u.
Proof.
  induction u as [|x u IH]; [reflexivity|].
  rewrite rstrip_cons. destruct (rstrip u) as [|y r] eqn:Hr.
  - destruct (isspace x) eqn:E; [reflexivity|].
    rewrite rstrip_cons. simpl. now rewrite E.
  - rewrite rstrip_cons, IH. reflexivity.
Qed.

Lemma lstrip_head (u : str) :
  lstrip u = [] \/ exists y r, lstrip u = y :: r /\ isspace y = false.
Proof.
  induction u as [|x u IH]; simpl; [auto|].
  destruct (isspace x) eqn:E; [exact IH|].
  right. exists x, u. auto.
Qed.

Lemma strip_strip (u : str) : strip (strip u) = strip u.
Proof.
  unfold strip. destruct (lstrip_head u) as [-> | (y & r & -> & Hy)];
    [reflexivity|].
  assert (Hq : exists q, rstrip (y :: r) = y :: q).
  { rewrite rstrip_cons. destruct (rstrip r); [rewrite Hy|]; eauto. }
  destruct Hq as [q Hq]. rewrite Hq. simpl lstrip. rewrite Hy, <- Hq.
  apply rstrip_rstrip.
Qed.

Lemma clean_text_tidy (u : str) : tidy u -> clean_text u = u.
Proof.
  intros (Hc & Hs & Hk). unfold App.clean_text, sub_special.
  rewrite Hc, (filter_all _ Hk). exact Hs.
Qed.

Lemma clean_text_kept (t : str) : Forall (fun c => kept c = true) (clean_text t).
Proof.
  apply Forall_forall. intros c Hc. apply strip_In in Hc.
  unfold sub_special in Hc. apply filter_In in Hc. apply Hc.
Qed.

Lemma clean_text_of_kept (t : str) :
  Forall (fun c => kept c = true) t -> tidy (clean_text t).
Proof.
  intros Hk. split; [|split; [|apply clean_text_kept]];
    unfold App.clean_text, sub_special;
    rewrite (filter_all _ (collapse_kept false Hk)).
  - unfold strip. apply rstrip_collapsed, lstrip_collapsed.
    apply collapse_collapse. auto.
  - apply strip_strip.
Qed.

Lemma clean_text_again (t : str) :
  Forall (fun c => kept c = true) t ->
  clean_text (clean_text t) = clean_text t.
Proof. intros Hk. apply clean_text_tidy, clean_text_of_kept, Hk. Qed.

(** Where the second substitution has nothing to delete, cleaning
    twice is cleaning once. *)
Theorem clean_text_idempotent_on_kept (t : str) :
  Forall (fun c => kept c = true) t ->
  clean_text (clean_text t) = clean_text t.
Proof. apply clean_text_again. Qed.

(** For any text the third pass changes nothing. *)
Theorem clean_text_settles (t : str) :
  clean_text (clean_text (clean_text t)) = clean_text (clean_text t).
Proof. apply clean_text_again, clean_text_kept. Qed.

End CleanText.



(** ** Parse trees *)

Module SoupFacts.

Import Soup SoupShape.

Lemma find_from_Tag (name nm : string) (cs : list node) :
  find_from name (Tag nm cs) =
  if String.eqb nm name then Some (Tag nm cs) else find name cs.
Proof.
  simpl. destruct (String.eqb nm name); [reflexivity|].
  induction cs as [|c cs IH]; simpl; [reflexivity|].
  destruct (find_from name c); [reflexivity | exact IH].
Qed.








(** What [find] returns is an element of the name asked for. *)
Lemma find_from_name (name : string) (n t : node) :
  find_from name n = Some t -> exists cs, t = Tag name cs.
Proof.
  induction n as [s|s|nm cs IH] using node_tree_ind; try discriminate.
  rewrite find_from_Tag. destruct (String.eqb nm name) eqn:E.
  - apply String.eqb_eq in E; subst. intros [= <-]. eauto.
  - induction cs as [|c cs IHcs]; [discriminate|].
    inversion IH as [|? ? Hc Hrest]; subst. simpl.
    destruct (find_from name c); [intros [= <-]; apply Hc; reflexivity|].
    apply IHcs, Hrest.
Qed.

Lemma find_name (name : string) (page : soup) (t : node) :
  find name page = Some t -> exists cs, t = Tag name cs.
Proof.
  induction page as [|c page IH]; simpl; [discriminate|].
  destruct (find_from name c) eqn:E; [|exact IH].
  intros [= <-]. eapply find_from_name, E.
Qed.



End SoupFacts.

(** ** Running computations *)

Lemma bind_Ok {A B} (m : M A) (k : A -> M B) (s s' : State) (b : B) :
  bind m k s = (Ok b, s') ->
  exists a s1, m s = (Ok a, s1) /\ k a s1 = (Ok b, s').
Proof.
  unfold bind. destruct (m s) as [[a|e] s1]; [eauto | discriminate].
Qed.

Lemma bind_run {A B} (m : M A) (k : A -> M B) (s s1 : State) (a : A) :
  m s = (Ok a, s1) -> bind m k s = k a s1.
Proof. unfold bind. intros ->. reflexivity. Qed.
Arguments bind_run {A B m} k {s s1 a} _.

Lemma show_run (wd : widget) (s : State) : show wd s = (Ok tt, shown wd s).
Proof. reflexivity. Qed.

Lemma Forall_firstn_keeps {A} (P : A -> Prop) (n : nat) (l : list A) :
  Forall P l -> Forall P (firstn n l).
Proof.
  intros H. revert n. induction H as [|x l Hx Hl IH]; intros [|n]; simpl;
    constructor; auto.
Qed.

Lemma raise_for_status_Exception (r : Response) (e : exn) :
  raise_for_status r = Raise e -> is_Exception e = true.
Proof.
  unfold raise_for_status.
  destruct ((400 <=? status_code r) && (status_code r <? 500))%Z;
    [intros [= <-]; reflexivity|].
  destruct ((500 <=? status_code r) && (status_code r <? 600))%Z;
    [intros [= <-]; reflexivity | discriminate].
Qed.

Lemma raise_for_status_error (r : Response) :
  (400 <= status_code r < 600)%Z ->
  exists m, raise_for_status r = Raise (HTTPError m).
Proof.
  intros H. unfold raise_for_status.
  destruct ((400 <=? status_code r) && (status_code r <? 500))%Z eqn:E1; [eauto|].
  destruct ((500 <=? status_code r) && (status_code r <? 600))%Z eqn:E2; [eauto|].
  exfalso.
  apply andb_false_iff in E1. apply andb_false_iff in E2.
  rewrite Z.leb_gt, Z.ltb_ge in E1, E2. lia.
Qed.

Lemma raise_for_status_passes (r : Response) :
  raise_for_status r = Ok tt -> ~ (400 <= status_code r < 600)%Z.
Proof.
  intros H Hr. destruct (raise_for_status_error r Hr) as [m Hm]. congruence.
Qed.

Section Scraping.

Variable unicode_isalnum : char -> bool.
Variable w : World.

Local Abbreviation clean_text := (clean_text unicode_isalnum).
Local Abbreviation scrape_url := (scrape_url unicode_isalnum w).
Local Abbreviation scrape_each := (scrape_each unicode_isalnum w).
Local Abbreviation load_data := (load_data unicode_isalnum w).
Local Abbreviation page_record := (page_record unicode_isalnum).
Local Abbreviation raises_only_Exception := (raises_only_Exception w).
Local Abbreviation fetch_failure := (fetch_failure w).
Local Abbreviation attempt := (attempt unicode_isalnum w).
Local Abbreviation contribution := (contribution unicode_isalnum w).
Local Abbreviation corpus := (corpus unicode_isalnum w).
Local Abbreviation url_fails := (url_fails unicode_isalnum w).
Local Abbreviation well_formed_document := (well_formed_document unicode_isalnum).

(** One call of [scrape_url], by what the world answers. *)
Lemma scrape_url_run (u : string) (s : State) :
  scrape_url u s =
  let s1 := sent (request_for u) s in
  match http w (List.length (http_log s)) (request_for u) with
  | Raise e => if is_Exception e then (Ok None, warned u e s1) else (Raise e, s1)
  | Ok r =>
      match raise_for_status r with
      | Raise e => (Ok None, warned u e s1)
      | Ok _ =>
          match html_parser w (response_content r) with
          | Raise e =>
              if is_Exception e then (Ok None, warned u e s1) else (Raise e, s1)
          | Ok page => (Ok (Some (page_record u page)), s1)
          end
      end
  end.
Proof.
  unfold App.scrape_url, try_except_Exception, scrape_url_try, bind,
    requests_get, lift. cbn -[raise_for_status firstn].
  fold (request_for u). fold (sent (request_for u) s).
  destruct (http w _ _) as [r|e]; [|destruct (is_Exception e); reflexivity].
  destruct (raise_for_status r) as [[]|e] eqn:Hs.
  - destruct (html_parser w _) as [page|e];
      [reflexivity | destruct (is_Exception e); reflexivity].
  - rewrite (raise_for_status_Exception _ Hs). reflexivity.
Qed.

(** A record comes from a page that was fetched, passed the status
    check and was parsed. *)
Lemma scrape_url_Some (u : string) (s s' : State) (r : PageRecord) :
  scrape_url u s = (Ok (Some r), s') ->
  exists resp page,
    http w (List.length (http_log s)) (request_for u) = Ok resp /\
    raise_for_status resp = Ok tt /\
    html_parser w (response_content resp) = Ok page /\
    r = page_record u page /\
    s' = sent (request_for u) s.
Proof.
  rewrite scrape_url_run. cbv zeta.
  destruct (http w _ _) as [resp|e]; [|destruct (is_Exception e); discriminate].
  destruct (raise_for_status resp) as [[]|e] eqn:Hs; [|discriminate].
  destruct (html_parser w _) as [page|e] eqn:Hp;
    [|destruct (is_Exception e); discriminate].
  intros [= <- <-]. exists resp, page. auto.
Qed.

Lemma attempt_failure (n : nat) (u : string) :
  fetch_failure n u -> attempt n u = None.
Proof.
  unfold Spec.attempt. intros [e H | resp H Hs | resp e H Hp]; rewrite H.
  - reflexivity.
  - destruct (raise_for_status_error resp Hs) as [m ->]. reflexivity.
  - destruct (raise_for_status resp); [rewrite Hp|]; reflexivity.
Qed.

Lemma progress_values_app (a b : list widget) :
  progress_values (a ++ b) = progress_values a ++ progress_values b.
Proof.
  induction a as [|x a IH]; simpl; [reflexivity|].
  destruct x; simpl; rewrite ?IH; reflexivity.
Qed.

Lemma progress_values_marks (l : list widget) :
  progress_values (marks l) = progress_values l.
Proof.
  induction l as [|x l IH]; simpl; [reflexivity|].
  destruct x; simpl; rewrite ?IH; reflexivity.
Qed.

Lemma marks_app (a b : list widget) : marks (a ++ b) = marks a ++ marks b.
Proof. apply filter_app. Qed.

(** A call of [scrape_url] that returns: what it returns and what it
    leaves behind. *)
Lemma scrape_url_Ok (u : string) (s s' : State) (data : option PageRecord) :
  scrape_url u s = (Ok data, s') ->
  data = attempt (List.length (http_log s)) u /\
  http_log s' = http_log s ++ [request_for u] /\
  marks (ui s') = marks (ui s) /\
  sleep_log s' = sleep_log s /\
  chroma_log s' = chroma_log s /\
  files s' = files s.
Proof.
  rewrite scrape_url_run. unfold Spec.attempt. cbv zeta.
  destruct (http w _ _) as [resp|e].
  - destruct (raise_for_status resp) as [[]|e].
    + destruct (html_parser w _) as [page|e].
      * intros [= <- <-]. repeat split.
      * destruct (is_Exception e); [|discriminate].
        intros [= <- <-]. simpl. rewrite marks_app, app_nil_r.
        repeat split.
    + intros [= <- <-]. simpl. rewrite marks_app, app_nil_r.
      repeat split.
  - destruct (is_Exception e); [|discriminate].
    intros [= <- <-]. simpl. rewrite marks_app, app_nil_r.
    repeat split.
Qed.

(** The request is sent whatever comes of it. *)
Lemma scrape_url_http_log (u : string) (s : State) :
  http_log (snd (scrape_url u s)) = http_log s ++ [request_for u].
Proof.
  rewrite scrape_url_run. cbv zeta.
  destruct (http w _ _) as [resp|e]; [|destruct (is_Exception e); reflexivity].
  destruct (raise_for_status resp) as [[]|e]; [|reflexivity].
  destruct (html_parser w _) as [page|e];
    [|destruct (is_Exception e)]; reflexivity.
Qed.

Lemma scrape_url_returns (u : string) (s : State) :
  raises_only_Exception ->
  exists (r : option PageRecord) (s' : State), scrape_url u s = (Ok r, s').
Proof.
  intros [Hnet Hparse]. rewrite scrape_url_run. cbv zeta.
  destruct (http w _ _) as [resp|e] eqn:Hh.
  - destruct (raise_for_status resp) as [[]|e]; [|eauto].
    destruct (html_parser w _) as [page|e] eqn:Hp; [eauto|].
    rewrite (Hparse _ _ Hp). eauto.
  - rewrite (Hnet _ _ _ Hh). eauto.
Qed.

(** C10, corrected. [scrape_url] returns a record or [None] and raises
    nothing, whatever the URL, when the network and the parser raise
    instances of [Exception] only; a network error or timeout, a last
    response with a status from 400 to 599 (those [raise_for_status]
    rejects, not every status outside 2xx) and a parser error all give
    [None], and a record carries the URL asked for. *)
Theorem scrape_url_catches_failures (u : string) (s : State) :
  raises_only_Exception ->
  exists (r : option PageRecord) (s' : State),
    scrape_url u s = (Ok r, s') /\
    (fetch_failure (List.length (http_log s)) u -> r = None) /\
    (forall d, r = Some d -> url d = u).
Proof.
  intros Hw. destruct (scrape_url_returns u s Hw) as (r & s' & Hrun).
  exists r, s'. split; [exact Hrun|].
  destruct (scrape_url_Ok _ _ Hrun) as (-> & _). split.
  - apply attempt_failure.
  - unfold Spec.attempt.
    destruct (http w _ _) as [resp|e]; [|discriminate].
    destruct (raise_for_status resp); [|discriminate].
    destruct (html_parser w _); [|discriminate].
    intros d [= <-]. reflexivity.
Qed.

(** C1, as the code has it. Every character of the content of a record
    is a word character in Python's sense (a letter or digit of any
    script, or the underscore), the space, or one of . , ! ? ; : ( ) - *)
Theorem scrape_url_content_chars (u : string) (s s' : State) (r : PageRecord) :
  scrape_url u s = (Ok (Some r), s') ->
  Forall (fun c => clean_char unicode_isalnum c = true) (content r).
Proof.
  intros H. apply scrape_url_Some in H.
  destruct H as (resp & page & _ & _ & _ & -> & _).
  unfold Spec.page_record. cbv zeta. cbn [content].
  apply Forall_firstn_keeps, clean_text_chars.
Qed.

(** C3. The content of a record has at most 5000 characters. *)
Theorem scrape_url_content_length (u : string) (s s' : State) (r : PageRecord) :
  scrape_url u s = (Ok (Some r), s') ->
  (List.length (content r) <= 5000)%nat.
Proof.
  intros H. apply scrape_url_Some in H.
  destruct H as (resp & page & _ & _ & _ & -> & _).
  unfold Spec.page_record. cbv zeta. cbn [content].
  apply firstn_le_length.
Qed.


(** What [scrape_url] raises is no instance of [Exception]: an
    interrupt or an exit passes through, nothing else. *)
Lemma scrape_url_raises (u : string) (s s' : State) (e : exn) :
  scrape_url u s = (Raise e, s') -> is_Exception e = false.
Proof.
  rewrite scrape_url_run. cbv zeta.
  destruct (http w _ _) as [resp|e0].
  - destruct (raise_for_status resp) as [[]|e1]; [|discriminate].
    destruct (html_parser w _) as [page|e1]; [discriminate|].
    destruct (is_Exception e1) eqn:E; [discriminate|].
    intros [= <- _]. exact E.
  - destruct (is_Exception e0) eqn:E; [discriminate|].
    intros [= <- _]. exact E.
Qed.

(** ** The corpus loop *)

Lemma url_fails_contribution (n : nat) (u : string) :
  url_fails n u -> contribution n u = [].
Proof.
  unfold Spec.contribution. intros [H | (d & -> & Hd)].
  - rewrite (attempt_failure H). reflexivity.
  - simpl. rewrite Hd. reflexivity.
Qed.

Lemma corpus_all_fail (urls : list string) (n : nat) :
  (forall i u, nth_error urls i = Some u -> url_fails (n + i) u) ->
  corpus n urls = [].
Proof.
  revert n. induction urls as [|u urls IH]; intros n H; [reflexivity|].
  simpl. rewrite url_fails_contribution.
  - apply IH. intros i v Hv. replace (S n + i)%nat with (n + S i)%nat by lia.
    apply H. exact Hv.
  - specialize (H 0%nat u eq_refl). now rewrite Nat.add_0_r in H.
Qed.

Lemma positive_of_nat (n : nat) : n <> 0%nat -> Z.pos (Pos.of_nat n) = Z.of_nat n.
Proof.
  intros H. rewrite <- positive_nat_Z, Nat2Pos.id by exact H. reflexivity.
Qed.

Lemma fraction_in_range (total k : nat) :
  (k <= total)%nat -> total <> 0%nat ->
  Qle_bool 0 (fraction total k) && Qle_bool (fraction total k) 1 = true.
Proof.
  intros Hk Ht. apply andb_true_iff.
  unfold Qle_bool, fraction. simpl Qnum. simpl Qden.
  rewrite (positive_of_nat Ht). split; apply Z.leb_le; lia.
Qed.

Lemma progress_Ok (v : Q) (s s' : State) (a : unit) :
  progress v s = (Ok a, s') -> s' = shown (progress_bar_progress v) s.
Proof.
  unfold progress. destruct (_ && _)%bool; [|discriminate].
  rewrite show_run. intros [= _ <-]. reflexivity.
Qed.

(** The loop, when it returns: the corpus, the requests, the lines on
    the page, the pauses; the vector store and the disk are as before. *)
Lemma scrape_each_Ok (urls : list string) :
  forall (total i : nat) (docs : list Document) (s : State)
         (docs' : list Document) (s' : State),
    scrape_each total i urls docs s = (Ok docs', s') ->
    docs' = docs ++ corpus (List.length (http_log s)) urls /\
    http_log s' = http_log s ++ map request_for urls /\
    marks (ui s') =
      marks (ui s)
      ++ flat_map (loop_lines total) (combine (seq (i + 1) (List.length urls)) urls) /\
    sleep_log s' = sleep_log s ++ repeat (1 # 2) (List.length urls) /\
    chroma_log s' = chroma_log s /\
    files s' = files s.
Proof.
  induction urls as [|u urls IH]; intros total i docs s docs' s' H.
  - simpl in H. injection H as <- <-. simpl. rewrite !app_nil_r. repeat split.
  - cbn [App.scrape_each] in H.
    apply bind_Ok in H. destruct H as ([] & s1 & H1 & H).
    rewrite show_run in H1. injection H1 as <-.
    apply bind_Ok in H. destruct H as (data & s2 & H2 & H).
    apply bind_Ok in H. destruct H as ([] & s3 & H3 & H).
    apply bind_Ok in H. destruct H as ([] & s4 & H4 & H).
    apply scrape_url_Ok in H2.
    destruct H2 as (-> & Hh2 & Hm2 & Hs2 & Hc2 & Hf2).
    apply progress_Ok in H3. subst s3.
    injection H4 as <-.
    apply IH in H. destruct H as (-> & Hh & Hm & Hs & Hc & Hf).
    cbn [http_log ui sleep_log chroma_log files slept shown] in *.
    rewrite Hh2 in *. rewrite Hm, Hs, Hc, Hf, Hh, Hc2, Hf2, Hs2.
    rewrite !marks_app, Hm2. rewrite marks_app.
    rewrite length_app. cbn [List.length].
    rewrite (Nat.add_1_r (List.length (http_log s))), (Nat.add_1_r (i + 1)).
    cbn [Spec.corpus map repeat seq combine flat_map loop_lines fst snd
         marks filter is_mark app].
    unfold Spec.contribution. rewrite Nat.add_1_r.
    rewrite <- !app_assoc. cbn [app]. repeat split.
    destruct (usable _); rewrite <- ?app_assoc; reflexivity.
Qed.

(** The loop returns when the world raises instances of [Exception]
    only and the index stays within the total. *)
Lemma scrape_each_returns (urls : list string) :
  raises_only_Exception ->
  forall (total i : nat) (docs : list Document) (s : State),
    (i + List.length urls <= total)%nat ->
    exists docs' s', scrape_each total i urls docs s = (Ok docs', s').
Proof.
  intros Hw. induction urls as [|u urls IH]; intros total i docs s Hi.
  - simpl. unfold ret. eauto.
  - cbn [App.scrape_each]. cbn [List.length] in Hi.
    rewrite (bind_run _ (show_run _ s)).
    destruct (scrape_url_returns u (shown (st_text ("📥 Scraping: " ++ u)%string) s) Hw)
      as (data & s2 & H2).
    rewrite (bind_run _ H2).
    unfold progress. fold (fraction total (i + 1)).
    rewrite fraction_in_range by lia.
    rewrite (bind_run _ (show_run _ s2)).
    unfold bind at 1. unfold time_sleep at 1.
    apply IH. lia.
Qed.

Local Abbreviation load_argyle_data := (load_argyle_data unicode_isalnum w).
Local Abbreviation get_vectorstore := (get_vectorstore unicode_isalnum w).
Local Abbreviation main_initialize := (main_initialize unicode_isalnum w).
Local Abbreviation main := (main unicode_isalnum w).

(** [load_argyle_data] on a list of URLs, when it returns. *)
Lemma load_data_Ok (urls : list string) (s s' : State) (docs : list Document) :
  load_data urls s = (Ok docs, s') ->
  docs = corpus (List.length (http_log s)) urls /\
  http_log s' = http_log s ++ map request_for urls /\
  marks (ui s') =
    marks (ui s)
    ++ flat_map (loop_lines (List.length urls))
                (combine (seq 1 (List.length urls)) urls) /\
  chroma_log s' = chroma_log s /\
  files s' = files s.
Proof.
  unfold App.load_data. intros H.
  apply bind_Ok in H. destruct H as ([] & s1 & H1 & H).
  rewrite show_run in H1. injection H1 as <-.
  apply bind_Ok in H. destruct H as ([] & s2 & H2 & H).
  rewrite show_run in H2. injection H2 as <-.
  apply bind_Ok in H. destruct H as (docs' & s3 & H3 & H).
  apply bind_Ok in H. destruct H as ([] & s4 & H4 & H).
  rewrite show_run in H4. injection H4 as <-.
  injection H as <- <-.
  apply scrape_each_Ok in H3.
  destruct H3 as (-> & Hh & Hm & _ & Hc & Hf).
  cbn [http_log ui chroma_log files shown] in *.
  rewrite !marks_app in *. cbn [marks filter is_mark] in *.
  rewrite !app_nil_r in Hm. rewrite app_nil_r.
  auto.
Qed.

Lemma load_data_returns (urls : list string) (s : State) :
  raises_only_Exception ->
  exists docs s', load_data urls s = (Ok docs, s').
Proof.
  intros Hw. unfold App.load_data.
  rewrite (bind_run _ (show_run _ s)).
  rewrite (bind_run _ (show_run _ _)).
  match goal with
  | |- context [bind (App.scrape_each ?t ?w' ?n ?i ?l ?d) _ ?s0] =>
      destruct (@scrape_each_returns l Hw n i d s0) as (docs & s3 & H3);
        [simpl; lia|]
  end.
  rewrite (bind_run _ H3). rewrite (bind_run _ (show_run _ s3)).
  unfold ret. eauto.
Qed.

(** C5, corrected. With a network and a parser that raise instances
    of [Exception] only, [load_argyle_data] returns for every list of
    URLs and raises nothing.  Every URL is requested, in order; the
    corpus is what the URLs contribute one by one; a URL that fails
    (network error, a status from 400 to 599 such as 404, parser error,
    no text left) contributes nothing; when all fail the corpus is
    empty.  A status outside 2xx that [raise_for_status] lets through
    is no failure. *)
Theorem load_data_contains_failures (urls : list string) (s : State) :
  raises_only_Exception ->
  exists s',
    load_data urls s = (Ok (corpus (List.length (http_log s)) urls), s') /\
    http_log s' = http_log s ++ map request_for urls /\
    (forall n u, url_fails n u -> contribution n u = []) /\
    ((forall i u, nth_error urls i = Some u ->
                  url_fails (List.length (http_log s) + i) u) ->
     corpus (List.length (http_log s)) urls = []).
Proof.
  intros Hw. destruct (load_data_returns urls s Hw) as (docs & s' & H).
  destruct (load_data_Ok _ _ H) as (-> & Hh & _).
  exists s'. repeat split; try assumption.
  - apply url_fails_contribution.
  - apply corpus_all_fail.
Qed.

Lemma progress_values_loop_lines (total : nat) (urls : list string) (a : nat) :
  progress_values
    (flat_map (loop_lines total) (combine (seq a (List.length urls)) urls))
  = map (fraction total) (seq a (List.length urls)).
Proof.
  revert a. induction urls as [|u urls IH]; intros a; [reflexivity|].
  cbn [List.length seq combine flat_map map].
  rewrite progress_values_app, IH. reflexivity.
Qed.

Lemma fraction_lt (total a b : nat) :
  (a < b)%nat -> (fraction total a < fraction total b)%Q.
Proof.
  intros H. unfold Qlt, fraction. simpl Qnum. simpl Qden.
  apply Z.mul_lt_mono_pos_r; [reflexivity | lia].
Qed.

Lemma fractions_increase (total k : nat) :
  forall a, StronglySorted Qlt (map (fraction total) (seq a k)).
Proof.
  induction k as [|k IH]; intros a; simpl; constructor.
  - apply IH.
  - apply Forall_forall. intros q Hq.
    apply in_map_iff in Hq. destruct Hq as (j & <- & Hj).
    apply in_seq in Hj. apply fraction_lt. lia.
Qed.

(** C7. When [load_argyle_data] has gone through a list of [n] URLs,
    the page shows, for the [k]-th URL, its line and then the progress
    [k/n]; the progress values are [1/n, ..., n/n], each greater than
    the one before. *)
Theorem progress_is_fraction_processed
        (urls : list string) (s s' : State) (docs : list Document) :
  load_data urls s = (Ok docs, s') ->
  marks (ui s') =
    marks (ui s)
    ++ flat_map (loop_lines (List.length urls))
                (combine (seq 1 (List.length urls)) urls) /\
  progress_values (ui s') =
    progress_values (ui s)
    ++ map (fraction (List.length urls)) (seq 1 (List.length urls)) /\
  StronglySorted Qlt (map (fraction (List.length urls)) (seq 1 (List.length urls))).
Proof.
  intros H. destruct (load_data_Ok _ _ H) as (_ & _ & Hm & _).
  split; [exact Hm|]. split; [|apply fractions_increase].
  rewrite <- (progress_values_marks (ui s')), Hm, progress_values_app,
    progress_values_marks, progress_values_loop_lines.
  reflexivity.
Qed.

(** C9. The URL list is fixed: 14 URLs, all under
    [https://www.argyleisd.com/].  For each URL [scrape_url] sends one
    GET request with a Mozilla [User-Agent] header and a timeout of 10
    seconds, and a run of [load_argyle_data] that returns has sent
    exactly these requests, in the order of the list. *)
Theorem fetcher_requests (u : string) (s : State) :
  List.length get_argyle_urls = 14%nat /\
  Forall (fun v => String.prefix "https://www.argyleisd.com/" v = true)
         get_argyle_urls /\
  http_log (snd (scrape_url u s)) =
    http_log s
    ++ [{| req_method := "GET";
           req_url := u;
           req_headers :=
             [("User-Agent",
               "Mozilla/5.0 (Windows NT 10.0; Win64; x64) AppleWebKit/537.36")];
           req_timeout := 10 |}] /\
  (forall docs s',
      load_argyle_data s = (Ok docs, s') ->
      http_log s' =
        http_log s
        ++ map (fun v => {| req_method := "GET";
                            req_url := v;
                            req_headers :=
                              [("User-Agent",
                                "Mozilla/5.0 (Windows NT 10.0; Win64; x64) AppleWebKit/537.36")];
                            req_timeout := 10 |})
               get_argyle_urls).
Proof.
  split; [reflexivity|]. split.
  - unfold get_argyle_urls. repeat constructor.
  - split; [apply scrape_url_http_log|].
    intros docs s' H. apply load_data_Ok in H. apply H.
Qed.

Lemma get_vectorstore_empty_run (s s1 : State) :
  load_argyle_data (shown (st_info "🧠 Creating knowledge base...") s) = (Ok [], s1) ->
  get_vectorstore s = (Ok None, shown no_documents s1) /\
  main_initialize s = (Ok None, shown not_initialized (shown no_documents s1)) /\
  chroma_log s1 = chroma_log s /\
  files s1 = files s.
Proof.
  intros H.
  assert (Hg : get_vectorstore s = (Ok None, shown no_documents s1)).
  { unfold App.get_vectorstore.
    rewrite (bind_run _ (show_run _ s)). rewrite (bind_run _ H).
    rewrite (bind_run _ (show_run _ s1)). reflexivity. }
  destruct (load_data_Ok _ _ H) as (_ & _ & _ & Hc & Hf).
  repeat split; try assumption.
  unfold App.main_initialize, try_except_Exception.
  rewrite (bind_run _ Hg). reflexivity.
Qed.

(** C4. When the corpus comes back empty, [get_vectorstore] returns
    [None] after showing the error, raises nothing, calls neither the
    embeddings nor [Chroma.from_documents], and leaves the disk as it
    was; the initialisation in [main] then shows its own error and
    gives up without raising. *)
Theorem get_vectorstore_empty_corpus (s s1 : State) :
  load_argyle_data (shown (st_info "🧠 Creating knowledge base...") s) = (Ok [], s1) ->
  exists s2,
    get_vectorstore s = (Ok None, s2) /\
    ui s2 = ui s1 ++ [st_error "❌ No documents loaded! Please check the network connection."] /\
    chroma_log s2 = chroma_log s /\
    files s2 = files s /\
    main_initialize s =
      (Ok None,
       shown (st_error "❌ Failed to initialize the knowledge base. Please check your network connection.") s2).
Proof.
  intros H. destruct (get_vectorstore_empty_run _ H) as (Hg & Hi & Hc & Hf).
  exists (shown no_documents s1). repeat split; assumption.
Qed.

(** ** Further facts about the corpus and the top level *)

Lemma attempt_Some (n : nat) (u : string) (d : PageRecord) :
  attempt n u = Some d ->
  url d = u /\
  (List.length (content d) <= 5000)%nat /\
  Forall (fun c => clean_char unicode_isalnum c = true) (content d).
Proof.
  unfold Spec.attempt.
  destruct (http w _ _) as [resp|e]; [|discriminate].
  destruct (raise_for_status resp); [|discriminate].
  destruct (html_parser w _) as [page|e]; [|discriminate].
  intros [= <-]. unfold Spec.page_record. cbv zeta. cbn [url content].
  split; [reflexivity|]. split; [apply firstn_le_length|].
  apply Forall_firstn_keeps, clean_text_chars.
Qed.

Lemma corpus_well_formed (urls : list string) :
  forall n, Forall (well_formed_document urls) (corpus n urls).
Proof.
  assert (H : forall l n, incl l urls ->
                          Forall (well_formed_document urls) (corpus n l)).
  { induction l as [|u l IH]; intros n Hl; [constructor|].
    simpl. apply Forall_app. split.
    - unfold Spec.contribution, usable.
      destruct (attempt n u) as [d|] eqn:Hd; [|constructor].
      destruct (content d) as [|c t] eqn:Hc; [constructor|].
      apply attempt_Some in Hd. destruct Hd as (Hu & Hlen & Hch).
      constructor; [|constructor].
      unfold Spec.well_formed_document, to_document. cbn [page_content metadata source].
      rewrite Hc in *. rewrite Hu. repeat split.
      + simpl. lia.
      + exact Hlen.
      + exact Hch.
      + apply Hl. now left.
    - apply IH. intros x Hx. apply Hl. now right. }
  intros n. apply H, incl_refl.
Qed.

(** Every document [load_argyle_data] returns has between 1 and 5000
    characters of cleaned text and one of the URLs as its source. *)
Theorem load_data_documents (urls : list string) (s s' : State)
        (docs : list Document) :
  load_data urls s = (Ok docs, s') ->
  Forall (well_formed_document urls) docs /\
  (List.length docs <= List.length urls)%nat.
Proof.
  intros H. destruct (load_data_Ok _ _ H) as (-> & _).
  split; [apply corpus_well_formed|].
  generalize (List.length (http_log s)). clear H.
  induction urls as [|u urls IH]; intros n; simpl; [lia|].
  rewrite length_app. specialize (IH (S n)).
  unfold Spec.contribution. destruct (usable _); simpl; lia.
Qed.

(** The initialisation in [main] raises no instance of [Exception]. *)
Theorem main_initialize_raises (s s' : State) (e : exn) :
  main_initialize s = (Raise e, s') -> is_Exception e = false.
Proof.
  unfold App.main_initialize, try_except_Exception.
  match goal with |- context [match ?m s with _ => _ end] => destruct (m s) as [[a|e0] s0] end.
  - discriminate.
  - destruct (is_Exception e0) eqn:E; [discriminate|].
    intros [= <- _]. exact E.
Qed.

Lemma path_exists_run (p : string) (s : State) :
  path_exists p s = (Ok (existsb (String.eqb p) (files s)), s).
Proof. reflexivity. Qed.

Lemma main_header_run (key : option string) (s : State) :
  refresh_clicked w = false ->
  exists s1, main_header w key s = (Ok tt, s1) /\
             chroma_log s1 = chroma_log s /\ files s1 = files s /\
             http_log s1 = http_log s.
Proof.
  intros H. unfold main_header.
  rewrite !(bind_run _ (show_run _ _)).
  rewrite (bind_run _ (path_exists_run _ _)).
  rewrite !(bind_run _ (show_run _ _)), H.
  eexists. split; [reflexivity|]. repeat split.
Qed.

(** With an empty corpus [main] ends without raising, after its
    error, and nothing is stored. *)
Theorem main_empty_corpus (key : option string) (s s1 : State) :
  refresh_clicked w = false ->
  load_argyle_data
    (shown (st_info "🧠 Creating knowledge base...") (snd (main_header w key s)))
  = (Ok [], s1) ->
  exists s',
    main key s = (Ok tt, s') /\
    In (st_error "❌ Failed to initialize the knowledge base. Please check your network connection.")
       (ui s') /\
    chroma_log s' = chroma_log s /\
    files s' = files s.
Proof.
  intros Hr H.
  destruct (main_header_run key s Hr) as (sh & Hh & Hc & Hf & _).
  rewrite Hh in H. cbn [snd] in H.
  destruct (get_vectorstore_empty_run _ H) as (_ & Hi & Hc2 & Hf2).
  eexists. unfold App.main. rewrite (bind_run _ Hh), (bind_run _ Hi).
  split; [reflexivity|]. cbn [ui chroma_log files shown].
  split; [apply in_or_app; right; now left|].
  split; congruence.
Qed.

End Scraping.

(** ** Runs on the sample worlds *)

Lemma online_scrape (tbl : char -> bool) :
  scrape_url tbl online home (initial_state [])
  = (Ok (Some sample_record), sent (request_for home) (initial_state [])).
Proof. vm_compute. reflexivity. Qed.

(** A page without a [title] element gets the fallback title. *)
Lemma untitled_scrape (tbl : char -> bool) :
  scrape_url tbl untitled home (initial_state [])
  = (Ok (Some {| url := home;
                 title := of_string "No Title";
                 content := of_string "Bus routes" |}),
     sent (request_for home) (initial_state [])).
Proof. vm_compute. reflexivity. Qed.

(** A 404 answer becomes a warning and [None]. *)
Lemma not_found_scrape (tbl : char -> bool) :
  scrape_url tbl not_found home (initial_state [])
  = (Ok None,
     warned home
       (HTTPError "404 Client Error: Not Found for url: https://www.argyleisd.com/")
       (sent (request_for home) (initial_state []))).
Proof. vm_compute. reflexivity. Qed.

Lemma offline_raises_only_Exception : raises_only_Exception offline.
Proof.
  split; simpl.
  - intros n req e [= <-]. reflexivity.
  - intros b e. discriminate.
Qed.

(** C1, as the design document has it, fails: the underscore of the
    page text stays in the content, and it is none of the characters the
    document allows. *)
Lemma content_keeps_underscore :
  (forall tbl, fst (scrape_url tbl online home (initial_state []))
               = Ok (Some sample_record)) /\
  In underscore (content sample_record) /\
  ascii_allowed underscore = false.
Proof.
  split; [intros tbl; rewrite online_scrape; reflexivity|].
  split; [|reflexivity].
  unfold underscore. simpl. tauto.
Qed.

Lemma scrape_url_content_chars_witness :
  scrape_url ascii_only online home (initial_state [])
  = (Ok (Some sample_record), sent (request_for home) (initial_state [])) /\
  Forall (fun c => clean_char ascii_only c = true) (content sample_record).
Proof.
  split; [apply online_scrape|].
  exact (@scrape_url_content_chars ascii_only online home (initial_state [])
           _ sample_record (online_scrape ascii_only)).
Defined.

Lemma scrape_url_content_length_witness :
  scrape_url ascii_only online home (initial_state [])
  = (Ok (Some sample_record), sent (request_for home) (initial_state [])) /\
  (List.length (content sample_record) <= 5000)%nat.
Proof.
  split; [apply online_scrape|].
  exact (@scrape_url_content_length ascii_only online home (initial_state [])
           _ sample_record (online_scrape ascii_only)).
Defined.


(** The sample page is a tree of [html.parser], and its first [title]
    element has the text of the record. *)
Lemma sample_page_title :
  SoupShape.parsed_by_html_parser sample_page = true /\
  Soup.find "title" sample_page
  = Some (Tag "title" [NavigableString (of_string "Argyle ISD")]) /\
  SoupShape.free_of ["script"; "style"]
    (Tag "title" [NavigableString (of_string "Argyle ISD")]) = true.
Proof. repeat split. Qed.

Lemma scrape_url_catches_failures_witness :
  raises_only_Exception offline /\
  exists (r : option PageRecord) (s' : State),
    scrape_url ascii_only offline home (initial_state []) = (Ok r, s') /\
    (fetch_failure offline 0 home -> r = None) /\
    (forall d, r = Some d -> url d = home).
Proof.
  split; [exact offline_raises_only_Exception|].
  exact (@scrape_url_catches_failures ascii_only offline home (initial_state [])
           offline_raises_only_Exception).
Defined.

Lemma flaky_raises_only_Exception : raises_only_Exception flaky.
Proof.
  split; simpl.
  - intros [|[|n]] req e; [discriminate | discriminate | intros [= <-]; reflexivity].
  - intros b e. discriminate.
Qed.

(** On the flaky network only the second URL gets into the corpus. *)
Lemma flaky_corpus :
  corpus ascii_only flaky 0 three_urls
  = [{| page_content := of_string "Argyle ISDsnake_case  home";
        metadata := {| source := "https://www.argyleisd.com/about";
                       doc_title := of_string "Argyle ISD" |} |}].
Proof. vm_compute. reflexivity. Qed.

Lemma load_data_contains_failures_witness :
  raises_only_Exception flaky /\
  exists s',
    load_data ascii_only flaky three_urls (initial_state [])
    = (Ok (corpus ascii_only flaky
                  (List.length (http_log (initial_state []))) three_urls), s') /\
    http_log s' = http_log (initial_state []) ++ map request_for three_urls /\
    (forall n u, url_fails ascii_only flaky n u ->
                 contribution ascii_only flaky n u = []) /\
    ((forall i u, nth_error three_urls i = Some u ->
                  url_fails ascii_only flaky
                            (List.length (http_log (initial_state [])) + i) u) ->
     corpus ascii_only flaky (List.length (http_log (initial_state []))) three_urls = []).
Proof.
  split; [exact flaky_raises_only_Exception|].
  exact (@load_data_contains_failures ascii_only flaky three_urls (initial_state [])
           flaky_raises_only_Exception).
Defined.

Lemma progress_is_fraction_processed_witness :
  exists docs s',
    load_data ascii_only flaky three_urls (initial_state []) = (Ok docs, s') /\
    (marks (ui s') =
       marks (ui (initial_state []))
       ++ flat_map (loop_lines (List.length three_urls))
                   (combine (seq 1 (List.length three_urls)) three_urls) /\
     progress_values (ui s') =
       progress_values (ui (initial_state []))
       ++ map (fraction (List.length three_urls)) (seq 1 (List.length three_urls)) /\
     StronglySorted Qlt
       (map (fraction (List.length three_urls)) (seq 1 (List.length three_urls)))).
Proof.
  eexists. eexists. split.
  - vm_compute. reflexivity.
  - eapply (@progress_is_fraction_processed ascii_only flaky three_urls
              (initial_state [])).
    vm_compute. reflexivity.
Defined.

Lemma get_vectorstore_empty_corpus_witness :
  exists s1,
    load_argyle_data ascii_only offline
      (shown (st_info "🧠 Creating knowledge base...") (initial_state []))
    = (Ok [], s1) /\
    exists s2,
      get_vectorstore ascii_only offline (initial_state []) = (Ok None, s2) /\
      ui s2 = ui s1 ++ [st_error "❌ No documents loaded! Please check the network connection."] /\
      chroma_log s2 = chroma_log (initial_state []) /\
      files s2 = files (initial_state []) /\
      main_initialize ascii_only offline (initial_state []) =
        (Ok None,
         shown (st_error "❌ Failed to initialize the knowledge base. Please check your network connection.") s2).
Proof.
  eexists. split.
  - vm_compute. reflexivity.
  - eapply (@get_vectorstore_empty_corpus ascii_only offline (initial_state [])).
    vm_compute. reflexivity.
Defined.

(** ** Normalising twice *)

(** C2 fails on the code. A character that the second substitution
    deletes between two spaces leaves both spaces in the result, and
    cleaning that result again makes them one: the second pass is not
    a no-op. *)
Theorem clean_text_twice_differs (tbl : char -> bool) :
  clean_text tbl (of_string "a @ b") = of_string "a  b" /\
  clean_text tbl (clean_text tbl (of_string "a @ b")) = of_string "a b".
Proof. split; vm_compute; reflexivity. Qed.

(** ** Starting without the API key *)

Lemma app_key_absent (tbl : char -> bool) (w : World) (env : environ) (s : State) :
  getenv env "OPENAI_API_KEY" = None ->
  app tbl w env s = (Raise (TypeError "str expected, not NoneType"), s).
Proof. unfold app. intros ->. reflexivity. Qed.

(** C6 fails on the code. In an environment without [OPENAI_API_KEY]
    the assignment [os.environ["OPENAI_API_KEY"] = None] at the top of
    the script raises [TypeError]: the run ends there, before [main],
    and the page shows nothing. *)
Theorem app_without_api_key (tbl : char -> bool) (w : World) (s : State) :
  getenv [("PATH", "/usr/bin")] "OPENAI_API_KEY" = None /\
  app tbl w [("PATH", "/usr/bin")] s
  = (Raise (TypeError "str expected, not NoneType"), s).
Proof. split; [reflexivity | apply app_key_absent; reflexivity]. Qed.

(** ** More runs *)

Lemma clean_text_idempotent_on_kept_witness :
  Forall (fun c => kept ascii_only c = true) (of_string "  Bus routes:  7 (a.m.) ") /\
  clean_text ascii_only (clean_text ascii_only (of_string "  Bus routes:  7 (a.m.) "))
  = clean_text ascii_only (of_string "  Bus routes:  7 (a.m.) ").
Proof.
  assert (H : Forall (fun c => kept ascii_only c = true)
                     (of_string "  Bus routes:  7 (a.m.) ")).
  { repeat constructor. }
  split; [exact H|].
  exact (@clean_text_idempotent_on_kept ascii_only _ H).
Defined.

Lemma scrape_url_raises_witness :
  scrape_url ascii_only interrupted home (initial_state [])
  = (Raise KeyboardInterrupt, sent (request_for home) (initial_state [])) /\
  is_Exception KeyboardInterrupt = false.
Proof.
  assert (H : scrape_url ascii_only interrupted home (initial_state [])
              = (Raise KeyboardInterrupt, sent (request_for home) (initial_state [])))
    by reflexivity.
  split; [exact H|].
  exact (@scrape_url_raises ascii_only interrupted home (initial_state []) _ _ H).
Defined.

Lemma main_initialize_raises_witness :
  exists s',
    main_initialize ascii_only interrupted (initial_state [])
    = (Raise KeyboardInterrupt, s') /\
    is_Exception KeyboardInterrupt = false.
Proof.
  eexists. split.
  - vm_compute. reflexivity.
  - eapply (@main_initialize_raises ascii_only interrupted (initial_state [])).
    vm_compute. reflexivity.
Defined.

Lemma load_data_documents_witness :
  exists docs s',
    load_data ascii_only flaky three_urls (initial_state []) = (Ok docs, s') /\
    Forall (well_formed_document ascii_only three_urls) docs /\
    (List.length docs <= List.length three_urls)%nat.
Proof.
  eexists. eexists. split.
  - vm_compute. reflexivity.
  - eapply (@load_data_documents ascii_only flaky three_urls (initial_state [])).
    vm_compute. reflexivity.
Defined.

Lemma main_empty_corpus_witness :
  refresh_clicked offline = false /\
  exists s1,
    load_argyle_data ascii_only offline
      (shown (st_info "🧠 Creating knowledge base...")
             (snd (main_header offline None (initial_state []))))
    = (Ok [], s1) /\
    exists s',
      main ascii_only offline None (initial_state []) = (Ok tt, s') /\
      In (st_error "❌ Failed to initialize the knowledge base. Please check your network connection.")
         (ui s') /\
      chroma_log s' = chroma_log (initial_state []) /\
      files s' = files (initial_state []).
Proof.
  split; [reflexivity|]. eexists. split.
  - vm_compute. reflexivity.
  - eapply (@main_empty_corpus ascii_only offline None (initial_state []));
      [reflexivity | vm_compute; reflexivity].
Defined.

(** C10, as worded, fails: a status that is not 2xx need not be a
    failure.  The last response has status 300, which
    [raise_for_status] lets through; its body is parsed and
    [scrape_url] returns a record, not [None]. *)
Lemma status_300_gives_record :
  http multiple_choices 0 (request_for home)
  = Ok (respond (request_for home) 300 "Multiple Choices") /\
  raise_for_status (respond (request_for home) 300 "Multiple Choices") = Ok tt /\
  scrape_url ascii_only multiple_choices home (initial_state [])
  = (Ok (Some sample_record), sent (request_for home) (initial_state [])).
Proof. repeat split. Qed.

(** C5, as worded, fails: a URL answered with status 300 is not
    skipped; [load_argyle_data] puts its page into the corpus. *)
Lemma status_300_page_is_loaded :
  http multiple_choices 0 (request_for home)
  = Ok (respond (request_for home) 300 "Multiple Choices") /\
  fst (load_data ascii_only multiple_choices [home] (initial_state []))
  = Ok [to_document sample_record].
Proof. split; [reflexivity | vm_compute; reflexivity]. Qed.

(** ** What cleaning keeps *)

Section CleanTextKeeps.

Variable unicode_isalnum : char -> bool.

Local Abbreviation kept := (kept unicode_isalnum).
Local Abbreviation clean_text := (clean_text unicode_isalnum).
Local Abbreviation solid := (Page.solid unicode_isalnum).
Local Abbreviation collapse := sub_whitespace_runs.

Lemma solid_space (c : char) : isspace c = true -> solid c = false.
Proof. intros H. unfold Page.solid. rewrite H. apply andb_false_r. Qed.

Lemma solid_kept (c : char) : solid c = true -> kept c = true.
Proof. unfold Page.solid. intros H. apply andb_true_iff in H. apply H. Qed.

Lemma filter_solid_collapse (b : bool) (t : str) :
  filter solid (collapse b t) = filter solid t.
Proof.
  revert b. induction t as [|x t IH]; intros b; [reflexivity|].
  cbn [sub_whitespace_runs filter].
  destruct (isspace x) eqn:Hx.
  - rewrite (solid_space _ Hx). destruct b; [apply IH|].
    cbn [filter]. rewrite (solid_space space eq_refl). apply IH.
  - cbn [filter]. rewrite IH. reflexivity.
Qed.

Lemma filter_solid_kept (l : str) : filter solid (filter kept l) = filter solid l.
Proof.
  induction l as [|x l IH]; simpl; [reflexivity|].
  destruct (kept x) eqn:Hk; simpl; rewrite IH; [reflexivity|].
  destruct (solid x) eqn:Hs; [|reflexivity].
  apply solid_kept in Hs. congruence.
Qed.

Lemma filter_solid_lstrip (l : str) : filter solid (lstrip l) = filter solid l.
Proof.
  induction l as [|x l IH]; simpl; [reflexivity|].
  destruct (isspace x) eqn:Hx; [|reflexivity].
  rewrite (solid_space _ Hx). exact IH.
Qed.

Lemma filter_solid_rstrip (l : str) : filter solid (rstrip l) = filter solid l.
Proof.
  induction l as [|x l IH]; [reflexivity|].
  rewrite rstrip_cons. simpl filter at 2. rewrite <- IH.
  destruct (rstrip l); [|reflexivity].
  destruct (isspace x) eqn:Hx; [|reflexivity].
  rewrite (solid_space _ Hx). reflexivity.
Qed.

Lemma filter_solid_clean_text (t : str) :
  filter solid (clean_text t) = filter solid t.
Proof.
  unfold App.clean_text, sub_special, strip.
  rewrite filter_solid_rstrip, filter_solid_lstrip, filter_solid_kept.
  apply filter_solid_collapse.
Qed.

Lemma rstrip_last (u r : str) (c : char) :
  rstrip u = r ++ [c] -> isspace c = false.
Proof.
  revert r. induction u as [|x u IH]; intros r.
  - destruct r; discriminate.
  - rewrite rstrip_cons. destruct (rstrip u) as [|y q] eqn:Hq.
    + destruct (isspace x) eqn:Hx.
      * destruct r; discriminate.
      * destruct r as [|z [|z' r]]; simpl; try discriminate.
        intros [= <-]. exact Hx.
    + destruct r as [|z r]; simpl; [discriminate|].
      intros [= _ H]. eapply IH. exact H.
Qed.

Lemma strip_first (u r : str) (c : char) :
  strip u = c :: r -> isspace c = false.
Proof.
  unfold strip. destruct (lstrip_head u) as [-> | (y & q & -> & Hy)];
    [discriminate|].
  rewrite rstrip_cons. destruct (rstrip q); [rewrite Hy|];
    intros [= <- _]; exact Hy.
Qed.

Lemma lstrip_length (u : str) : (List.length (lstrip u) <= List.length u)%nat.
Proof.
  induction u as [|x u IH]; simpl; [lia|].
  destruct (isspace x); simpl; lia.
Qed.

Lemma rstrip_length (u : str) : (List.length (rstrip u) <= List.length u)%nat.
Proof.
  induction u as [|x u IH]; [simpl; lia|].
  rewrite rstrip_cons. destruct (rstrip u); [destruct (isspace x)|];
    simpl in *; lia.
Qed.

(** Cleaning loses no character that it keeps as it is: the word
    characters and the punctuation of the text are all in the result,
    in the same order. *)
Theorem clean_text_keeps_solid (t : str) :
  filter solid (clean_text t) = filter solid t.
Proof. apply filter_solid_clean_text. Qed.

(** The result is empty exactly when the text holds nothing but
    whitespace and characters the second substitution deletes. *)
Theorem clean_text_empty (t : str) :
  clean_text t = [] <-> filter solid t = [].
Proof.
  split; intros H.
  - rewrite <- filter_solid_clean_text, H. reflexivity.
  - destruct (clean_text t) as [|c r] eqn:E; [reflexivity|].
    exfalso.
    pose proof (filter_solid_clean_text t) as Hf. rewrite E, H in Hf.
    pose proof (clean_text_kept unicode_isalnum t) as Hk. rewrite E in Hk.
    inversion Hk as [|? ? Hc _]; subst.
    unfold App.clean_text in E. apply strip_first in E.
    simpl in Hf. unfold Page.solid in Hf at 1. rewrite Hc, E in Hf.
    discriminate.
Qed.

(** The result neither starts nor ends with whitespace, and is no
    longer than the text. *)
Theorem clean_text_trimmed (t : str) :
  (forall c r, clean_text t = c :: r -> isspace c = false) /\
  (forall r c, clean_text t = r ++ [c] -> isspace c = false) /\
  (List.length (clean_text t) <= List.length t)%nat.
Proof.
  unfold App.clean_text, sub_special. repeat split.
  - intros c r H. eapply strip_first, H.
  - intros r c H. unfold strip in H. eapply rstrip_last, H.
  - unfold strip.
    pose proof (rstrip_length
                  (lstrip (filter kept (collapse false t)))).
    pose proof (lstrip_length (filter kept (collapse false t))).
    pose proof (filter_length_le kept (collapse false t)).
    pose proof (collapse_length false t). lia.
Qed.

End CleanTextKeeps.

(** ** What a run keeps *)

Lemma keeps_bind_via (R1 R2 R3 : State -> State -> Prop) {A B}
      (m : M A) (k : A -> M B) :
  (forall a b c, R1 a b -> R2 b c -> R3 a c) ->
  (forall a b, R1 a b -> R3 a b) ->
  keeps R1 m -> (forall a, keeps R2 (k a)) -> keeps R3 (bind m k).
Proof.
  intros Hc Hi Hm Hk s. unfold bind. specialize (Hm s).
  destruct (m s) as [[a|e] s1]; cbn [snd] in *.
  - eapply Hc; [exact Hm | apply Hk].
  - apply Hi, Hm.
Qed.

Lemma keeps_try_via (R1 R2 R3 : State -> State -> Prop) {A}
      (body : M A) (handler : exn -> M A) :
  (forall a b c, R1 a b -> R2 b c -> R3 a c) ->
  (forall a b, R1 a b -> R3 a b) ->
  keeps R1 body -> (forall e, keeps R2 (handler e)) ->
  keeps R3 (try_except_Exception body handler).
Proof.
  intros Hc Hi Hm Hk s. unfold try_except_Exception. specialize (Hm s).
  destruct (body s) as [[a|e] s1]; cbn [snd] in *.
  - apply Hi, Hm.
  - destruct (is_Exception e); cbn [snd].
    + eapply Hc; [exact Hm | apply Hk].
    + apply Hi, Hm.
Qed.

Section Keeping.

Variable unicode_isalnum : char -> bool.
Variable w : World.

(** A relation between states that holds along every step of a run
    holds for the run. *)
Variable R : State -> State -> Prop.
Hypothesis R_refl : forall s, R s s.
Hypothesis R_trans : forall a b c, R a b -> R b c -> R a c.
Hypothesis R_shown : forall wd s, R s (shown wd s).

Lemma keeps_ret {A} (a : A) : keeps R (ret a).
Proof. intros s. apply R_refl. Qed.

Lemma keeps_raise {A} (e : exn) : keeps R (@raise A e).
Proof. intros s. apply R_refl. Qed.

Lemma keeps_lift {A} (r : result A) : keeps R (lift r).
Proof. intros s. apply R_refl. Qed.

Lemma keeps_bind {A B} (m : M A) (k : A -> M B) :
  keeps R m -> (forall a, keeps R (k a)) -> keeps R (bind m k).
Proof. apply keeps_bind_via; auto. Qed.

Lemma keeps_try {A} (body : M A) (handler : exn -> M A) :
  keeps R body -> (forall e, keeps R (handler e)) ->
  keeps R (try_except_Exception body handler).
Proof. apply keeps_try_via; auto. Qed.

Lemma keeps_show (wd : widget) : keeps R (show wd).
Proof. intros s. apply R_shown. Qed.

Lemma keeps_progress (v : Q) : keeps R (progress v).
Proof.
  unfold progress. destruct (_ && _)%bool; [apply keeps_show | apply keeps_raise].
Qed.

Lemma keeps_main_header (key : option string) : keeps R (main_header w key).
Proof.
  unfold main_header.
  repeat (apply keeps_bind; [try apply keeps_show | intros ?]).
  - intros s. apply R_refl.
  - destruct (refresh_clicked w); [apply keeps_raise | apply keeps_ret].
Qed.

Lemma keeps_get_qa_chain (vs : option Chroma) : keeps R (get_qa_chain w vs).
Proof.
  unfold get_qa_chain. destruct vs; [|apply keeps_ret].
  apply keeps_bind; [apply keeps_lift | intros ?; apply keeps_ret].
Qed.

Lemma keeps_show_sources (docs : list Document) :
  forall i, keeps R (show_sources i docs).
Proof.
  induction docs as [|d docs IH]; intros i; simpl; [apply keeps_ret|].
  apply keeps_bind; [apply keeps_show | intros ?; apply IH].
Qed.

Lemma keeps_main_interface (qa : RetrievalQA) : keeps R (main_interface w qa).
Proof.
  unfold main_interface.
  do 2 (apply keeps_bind; [apply keeps_show | intros ?]).
  destruct (truthy _); [|apply keeps_ret].
  apply keeps_bind; [apply keeps_show | intros ?].
  apply keeps_try.
  - apply keeps_bind; [apply keeps_lift | intros result].
    do 2 (apply keeps_bind; [apply keeps_show | intros ?]).
    destruct (source_documents result) as [[|d ds]|]; try apply keeps_ret.
    apply keeps_bind; [apply keeps_show | intros ?; apply keeps_show_sources].
  - intros e. apply keeps_bind; [apply keeps_show | intros ?; apply keeps_show].
Qed.

Hypothesis R_slept : forall q s, R s (slept q s).

Variable allowed : list string.
Hypothesis R_sent : forall u s, In u allowed -> R s (sent (request_for u) s).

Lemma keeps_scrape_url (u : string) :
  In u allowed -> keeps R (scrape_url unicode_isalnum w u).
Proof.
  intros Hu. unfold scrape_url, scrape_url_try. apply keeps_try.
  - apply keeps_bind; [intros s; apply R_sent, Hu | intros ?].
    apply keeps_bind; [apply keeps_lift | intros ?].
    apply keeps_bind; [apply keeps_lift | intros ?]. apply keeps_ret.
  - intros e. apply keeps_bind; [apply keeps_show | intros ?; apply keeps_ret].
Qed.

Lemma keeps_scrape_each (urls : list string) :
  incl urls allowed ->
  forall total i docs, keeps R (scrape_each unicode_isalnum w total i urls docs).
Proof.
  induction urls as [|u urls IH]; intros Hin total i docs; simpl;
    [apply keeps_ret|].
  apply keeps_bind; [apply keeps_show | intros ?].
  apply keeps_bind; [apply keeps_scrape_url, Hin; now left | intros ?].
  apply keeps_bind; [apply keeps_progress | intros ?].
  apply keeps_bind; [intros s; apply R_slept | intros ?].
  apply IH. intros x Hx. apply Hin. now right.
Qed.

Lemma keeps_load_data (urls : list string) :
  incl urls allowed -> keeps R (load_data unicode_isalnum w urls).
Proof.
  intros Hin. unfold load_data.
  do 2 (apply keeps_bind; [apply keeps_show | intros ?]).
  apply keeps_bind; [apply keeps_scrape_each, Hin | intros ?].
  apply keeps_bind; [apply keeps_show | intros ?; apply keeps_ret].
Qed.

Hypothesis allowed_urls : incl get_argyle_urls allowed.
Hypothesis R_stored :
  forall c s, corpus_call c -> R s (snd (chroma_from_documents_call w c s)).

Lemma keeps_get_vectorstore : keeps R (get_vectorstore unicode_isalnum w).
Proof.
  unfold get_vectorstore.
  apply keeps_bind; [apply keeps_show | intros ?].
  apply keeps_bind; [apply keeps_load_data, allowed_urls | intros docs].
  destruct docs as [|d docs].
  - apply keeps_bind; [apply keeps_show | intros ?; apply keeps_ret].
  - apply keeps_bind; [apply keeps_lift | intros emb].
    apply keeps_bind.
    + intros s. apply R_stored. repeat split. simpl. lia.
    + intros ?. apply keeps_bind; [apply keeps_show | intros ?; apply keeps_ret].
Qed.

Lemma keeps_main_initialize : keeps R (main_initialize unicode_isalnum w).
Proof.
  unfold main_initialize. apply keeps_try.
  - apply keeps_bind; [apply keeps_get_vectorstore | intros [vs|]].
    + apply keeps_bind; [apply keeps_get_qa_chain | intros [qa|]].
      * apply keeps_ret.
      * apply keeps_bind; [apply keeps_show | intros ?; apply keeps_ret].
    + apply keeps_bind; [apply keeps_show | intros ?; apply keeps_ret].
  - intros e. apply keeps_bind; [apply keeps_show | intros ?; apply keeps_ret].
Qed.

Lemma keeps_main (key : option string) : keeps R (main unicode_isalnum w key).
Proof.
  unfold main.
  apply keeps_bind; [apply keeps_main_header | intros ?].
  apply keeps_bind; [apply keeps_main_initialize | intros [[qa vs]|]].
  - apply keeps_main_interface.
  - apply keeps_ret.
Qed.

End Keeping.

(** Steps through a computation whose parts all keep one relation,
    given its reflexivity, transitivity and the step of [show]. *)
Ltac frame Hrefl Htrans Hshown :=
  repeat first
    [ apply keeps_ret; exact Hrefl
    | apply keeps_raise; exact Hrefl
    | apply keeps_lift; exact Hrefl
    | apply keeps_show; exact Hshown
    | apply keeps_bind; [exact Htrans | | intros ?] ].

Lemma http_untouched_refl (s : State) : http_untouched s s.
Proof. reflexivity. Qed.

Lemma http_untouched_trans (a b c : State) :
  http_untouched a b -> http_untouched b c -> http_untouched a c.
Proof. unfold http_untouched. congruence. Qed.

Lemma http_untouched_shown (wd : widget) (s : State) :
  http_untouched s (shown wd s).
Proof. reflexivity. Qed.

Lemma store_untouched_refl (s : State) : store_untouched s s.
Proof. split; reflexivity. Qed.

Lemma store_untouched_trans (a b c : State) :
  store_untouched a b -> store_untouched b c -> store_untouched a c.
Proof. unfold store_untouched. intros [] []. split; congruence. Qed.

Lemma store_untouched_shown (wd : widget) (s : State) :
  store_untouched s (shown wd s).
Proof. split; reflexivity. Qed.

Lemma store_untouched_slept (q : Q) (s : State) : store_untouched s (slept q s).
Proof. split; reflexivity. Qed.

Lemma store_untouched_sent (u : string) (s : State) :
  store_untouched s (sent (request_for u) s).
Proof. split; reflexivity. Qed.

Lemma page_grows_refl (s : State) : page_grows s s.
Proof. exists []. now rewrite app_nil_r. Qed.

Lemma page_grows_trans (a b c : State) :
  page_grows a b -> page_grows b c -> page_grows a c.
Proof.
  intros [x Hx] [y Hy]. exists (x ++ y). now rewrite Hy, Hx, app_assoc.
Qed.

Lemma page_grows_shown (wd : widget) (s : State) : page_grows s (shown wd s).
Proof. exists [wd]. reflexivity. Qed.

Lemma page_grows_slept (q : Q) (s : State) : page_grows s (slept q s).
Proof. exists []. simpl. now rewrite app_nil_r. Qed.

Lemma page_grows_sent (r : Request) (s : State) : page_grows s (sent r s).
Proof. exists []. simpl. now rewrite app_nil_r. Qed.

Lemma sends_prefix_after (urls : list string) (a b c : State) :
  sends_prefix urls a b -> http_untouched b c -> sends_prefix urls a c.
Proof. intros [k Hk] Hc. exists k. now rewrite Hc. Qed.

Lemma sends_prefix_before (urls : list string) (a b c : State) :
  http_untouched a b -> sends_prefix urls b c -> sends_prefix urls a c.
Proof. intros Hb [k Hk]. exists k. now rewrite Hk, Hb. Qed.

Lemma sends_prefix_none (urls : list string) (a b : State) :
  http_untouched a b -> sends_prefix urls a b.
Proof. intros H. exists 0%nat. simpl. now rewrite app_nil_r. Qed.

Lemma one_call_after (a b c : State) :
  at_most_one_corpus_call a b -> store_untouched b c ->
  at_most_one_corpus_call a c.
Proof.
  intros [Hb | (x & Hx & Hc)] [Hl Hf].
  - left. eapply store_untouched_trans; [exact Hb | split; assumption].
  - right. exists x. split; [congruence | exact Hc].
Qed.

Lemma one_call_before (a b c : State) :
  store_untouched a b -> at_most_one_corpus_call b c ->
  at_most_one_corpus_call a c.
Proof.
  intros Hb [Hc | (x & Hx & Hc)].
  - left. eapply store_untouched_trans; eassumption.
  - right. exists x. destruct Hb as [Hl _]. split; [congruence | exact Hc].
Qed.

Lemma one_call_none (a b : State) :
  store_untouched a b -> at_most_one_corpus_call a b.
Proof. now left. Qed.

Section WholeRun.

Variable unicode_isalnum : char -> bool.
Variable w : World.

Local Abbreviation scrape_url := (scrape_url unicode_isalnum w).
Local Abbreviation scrape_each := (scrape_each unicode_isalnum w).
Local Abbreviation load_data := (load_data unicode_isalnum w).
Local Abbreviation load_argyle_data := (load_argyle_data unicode_isalnum w).
Local Abbreviation get_vectorstore := (get_vectorstore unicode_isalnum w).
Local Abbreviation main_initialize := (main_initialize unicode_isalnum w).
Local Abbreviation main := (main unicode_isalnum w).
Local Abbreviation app := (app unicode_isalnum w).

Lemma chroma_call_http (c : ChromaCall) :
  keeps http_untouched (chroma_from_documents_call w c).
Proof.
  intros s. unfold chroma_from_documents_call.
  destruct (chroma_from_documents w c (files s)). reflexivity.
Qed.

Lemma chroma_call_page (c : ChromaCall) :
  keeps page_grows (chroma_from_documents_call w c).
Proof.
  intros s. unfold chroma_from_documents_call.
  destruct (chroma_from_documents w c (files s)). exists []. simpl.
  now rewrite app_nil_r.
Qed.

Lemma chroma_call_once (c : ChromaCall) :
  corpus_call c ->
  keeps at_most_one_corpus_call (chroma_from_documents_call w c).
Proof.
  intros Hc s. unfold chroma_from_documents_call.
  destruct (chroma_from_documents w c (files s)). right. exists c. auto.
Qed.

(** The loop asks for the URLs in their order and stops asking when
    it raises. *)
Lemma scrape_each_sends (urls : list string) :
  forall total i docs, keeps (sends_prefix urls) (scrape_each total i urls docs).
Proof.
  induction urls as [|u urls IH]; intros total i docs s.
  - exists 0%nat. simpl. now rewrite app_nil_r.
  - cbn [App.scrape_each]. rewrite (bind_run _ (show_run _ s)).
    set (s1 := shown _ s). unfold bind at 1.
    pose proof (scrape_url_http_log unicode_isalnum w u s1) as H2.
    destruct (scrape_url u s1) as [[data|e] s2]; cbn [snd] in *.
    + unfold bind at 1. unfold progress.
      destruct (_ && _)%bool.
      * rewrite show_run. unfold bind at 1. unfold time_sleep at 1.
        match goal with |- sends_prefix _ _ (snd (App.scrape_each _ _ _ _ _ ?d ?s4)) =>
          destruct (IH total (i + 1)%nat d s4) as [k Hk] end.
        exists (S k). rewrite Hk. cbn [http_log shown firstn map].
        rewrite H2. cbn [http_log shown s1]. now rewrite <- app_assoc.
      * unfold raise. cbn [snd]. exists 1%nat. rewrite H2. reflexivity.
    + exists 1%nat. rewrite H2. reflexivity.
Qed.

Lemma load_data_sends (urls : list string) :
  keeps (sends_prefix urls) (load_data urls).
Proof.
  unfold App.load_data.
  apply keeps_bind_via with (R1 := http_untouched) (R2 := sends_prefix urls);
    [apply sends_prefix_before | apply sends_prefix_none
     | apply keeps_show, http_untouched_shown | intros ?].
  apply keeps_bind_via with (R1 := http_untouched) (R2 := sends_prefix urls);
    [apply sends_prefix_before | apply sends_prefix_none
     | apply keeps_show, http_untouched_shown | intros ?].
  apply keeps_bind_via with (R1 := sends_prefix urls) (R2 := http_untouched);
    [apply sends_prefix_after | auto | apply scrape_each_sends | intros ?].
  frame http_untouched_refl http_untouched_trans http_untouched_shown.
Qed.

Lemma get_vectorstore_sends :
  keeps (sends_prefix get_argyle_urls) get_vectorstore.
Proof.
  unfold App.get_vectorstore.
  apply keeps_bind_via
    with (R1 := http_untouched) (R2 := sends_prefix get_argyle_urls);
    [apply sends_prefix_before | apply sends_prefix_none
     | apply keeps_show, http_untouched_shown | intros ?].
  apply keeps_bind_via
    with (R1 := sends_prefix get_argyle_urls) (R2 := http_untouched);
    [apply sends_prefix_after | auto | apply load_data_sends | intros docs].
  destruct docs;
    frame http_untouched_refl http_untouched_trans http_untouched_shown.
  apply chroma_call_http.
Qed.

Lemma main_initialize_sends :
  keeps (sends_prefix get_argyle_urls) main_initialize.
Proof.
  unfold App.main_initialize.
  apply keeps_try_via
    with (R1 := sends_prefix get_argyle_urls) (R2 := http_untouched);
    [apply sends_prefix_after | auto | |
     intros e; frame http_untouched_refl http_untouched_trans http_untouched_shown].
  apply keeps_bind_via
    with (R1 := sends_prefix get_argyle_urls) (R2 := http_untouched);
    [apply sends_prefix_after | auto | apply get_vectorstore_sends | intros [vs|]];
    [|frame http_untouched_refl http_untouched_trans http_untouched_shown].
  apply keeps_bind;
    [exact http_untouched_trans
    | apply keeps_get_qa_chain;
      [exact http_untouched_refl | exact http_untouched_trans]
    | intros [qa|]];
    frame http_untouched_refl http_untouched_trans http_untouched_shown.
Qed.

Lemma main_sends (key : option string) :
  keeps (sends_prefix get_argyle_urls) (main key).
Proof.
  unfold App.main.
  apply keeps_bind_via
    with (R1 := http_untouched) (R2 := sends_prefix get_argyle_urls);
    [apply sends_prefix_before | apply sends_prefix_none
    | apply keeps_main_header;
      [exact http_untouched_refl | exact http_untouched_trans
       | exact http_untouched_shown]
    | intros ?].
  apply keeps_bind_via
    with (R1 := sends_prefix get_argyle_urls) (R2 := http_untouched);
    [apply sends_prefix_after | auto | apply main_initialize_sends
    | intros [[qa vs]|]].
  - apply keeps_main_interface;
      [exact http_untouched_refl | exact http_untouched_trans
       | exact http_untouched_shown].
  - apply keeps_ret, http_untouched_refl.
Qed.

(** Whatever the world does, the [requests.get] calls of a run of
    [main] are those of [scrape_url] for the first URLs of the list,
    in the order of the list and each at most once.  What the library
    sends on its own when it follows a redirect, and what the clients
    of the providers send, is not counted here. *)
Theorem main_requests (key : option string) (s : State) :
  exists k,
    http_log (snd (main key s)) =
    http_log s
    ++ map (fun u => {| req_method := "GET";
                        req_url := u;
                        req_headers :=
                          [("User-Agent",
                            "Mozilla/5.0 (Windows NT 10.0; Win64; x64) AppleWebKit/537.36")];
                        req_timeout := 10 |})
           (firstn k get_argyle_urls).
Proof. apply main_sends. Qed.

End WholeRun.

(** ** The vector store and the disk *)

Section Store.

Variable unicode_isalnum : char -> bool.
Variable w : World.

Local Abbreviation load_argyle_data := (load_argyle_data unicode_isalnum w).
Local Abbreviation get_vectorstore := (get_vectorstore unicode_isalnum w).
Local Abbreviation main_initialize := (main_initialize unicode_isalnum w).
Local Abbreviation main := (main unicode_isalnum w).

Lemma load_data_store (urls : list string) :
  keeps store_untouched (load_data unicode_isalnum w urls).
Proof.
  apply keeps_load_data with (allowed := urls);
    [exact store_untouched_refl | exact store_untouched_trans
     | exact store_untouched_shown | exact store_untouched_slept
     | intros u s _; apply store_untouched_sent | apply incl_refl].
Qed.

Lemma get_vectorstore_store : keeps at_most_one_corpus_call get_vectorstore.
Proof.
  unfold App.get_vectorstore.
  apply keeps_bind_via
    with (R1 := store_untouched) (R2 := at_most_one_corpus_call);
    [apply one_call_before | apply one_call_none
     | apply keeps_show, store_untouched_shown | intros ?].
  apply keeps_bind_via
    with (R1 := store_untouched) (R2 := at_most_one_corpus_call);
    [apply one_call_before | apply one_call_none
     | apply load_data_store | intros docs].
  destruct docs as [|d docs].
  - intros s. apply one_call_none. revert s.
    frame store_untouched_refl store_untouched_trans store_untouched_shown.
  - apply keeps_bind_via
      with (R1 := store_untouched) (R2 := at_most_one_corpus_call);
      [apply one_call_before | apply one_call_none
       | apply keeps_lift, store_untouched_refl | intros emb].
    apply keeps_bind_via
      with (R1 := at_most_one_corpus_call) (R2 := store_untouched);
      [apply one_call_after | auto | | intros ?].
    + apply chroma_call_once. repeat split. simpl. lia.
    + frame store_untouched_refl store_untouched_trans store_untouched_shown.
Qed.

Lemma main_initialize_store : keeps at_most_one_corpus_call main_initialize.
Proof.
  unfold App.main_initialize.
  apply keeps_try_via
    with (R1 := at_most_one_corpus_call) (R2 := store_untouched);
    [apply one_call_after | auto | |
     intros e; frame store_untouched_refl store_untouched_trans store_untouched_shown].
  apply keeps_bind_via
    with (R1 := at_most_one_corpus_call) (R2 := store_untouched);
    [apply one_call_after | auto | apply get_vectorstore_store | intros [vs|]];
    [|frame store_untouched_refl store_untouched_trans store_untouched_shown].
  apply keeps_bind;
    [exact store_untouched_trans
    | apply keeps_get_qa_chain;
      [exact store_untouched_refl | exact store_untouched_trans]
    | intros [qa|]];
    frame store_untouched_refl store_untouched_trans store_untouched_shown.
Qed.

Lemma main_store (key : option string) :
  keeps at_most_one_corpus_call (main key).
Proof.
  unfold App.main.
  apply keeps_bind_via
    with (R1 := store_untouched) (R2 := at_most_one_corpus_call);
    [apply one_call_before | apply one_call_none
    | apply keeps_main_header;
      [exact store_untouched_refl | exact store_untouched_trans
       | exact store_untouched_shown]
    | intros ?].
  apply keeps_bind_via
    with (R1 := at_most_one_corpus_call) (R2 := store_untouched);
    [apply one_call_after | auto | apply main_initialize_store
    | intros [[qa vs]|]].
  - apply keeps_main_interface;
      [exact store_untouched_refl | exact store_untouched_trans
       | exact store_untouched_shown].
  - apply keeps_ret, store_untouched_refl.
Qed.

(** Whatever the world does, a run of [main] either leaves the vector
    store uncalled and the disk as it was, or calls
    [Chroma.from_documents] exactly once, with a corpus that is not
    empty, the collection [argyleisd_real] and the directory
    [./chroma_db_real]. *)
Theorem main_builds_one_index (key : option string) (s : State) :
  (chroma_log (snd (main key s)) = chroma_log s /\
   files (snd (main key s)) = files s) \/
  (exists c,
      chroma_log (snd (main key s)) = chroma_log s ++ [c] /\
      (0 < List.length (documents c))%nat /\
      collection_name c = "argyleisd_real" /\
      persist_directory c = "./chroma_db_real").
Proof. apply main_store. Qed.

(** With a corpus and the embeddings at hand, [get_vectorstore] hands
    exactly the documents that were loaded to [Chroma.from_documents],
    once, and returns the store it gets back (or raises what the call
    raises). *)
Theorem get_vectorstore_indexes_corpus
        (s s1 : State) (d : Document) (docs : list Document) (emb : Embeddings) :
  load_argyle_data (shown (st_info "🧠 Creating knowledge base...") s)
  = (Ok (d :: docs), s1) ->
  openai_embeddings w "text-embedding-3-small" = Ok emb ->
  let call := {| documents := d :: docs;
                 embedding := emb;
                 collection_name := "argyleisd_real";
                 persist_directory := "./chroma_db_real" |} in
  chroma_log (snd (get_vectorstore s)) = chroma_log s ++ [call] /\
  files (snd (get_vectorstore s)) = snd (chroma_from_documents w call (files s)) /\
  fst (get_vectorstore s)
  = match fst (chroma_from_documents w call (files s)) with
    | Ok vs => Ok (Some vs)
    | Raise e => Raise e
    end.
Proof.
  intros Hload Hemb call.
  destruct (load_data_store get_argyle_urls
              (shown (st_info "🧠 Creating knowledge base...") s)) as [Hc Hf].
  unfold App.load_argyle_data in Hload. rewrite Hload in Hc, Hf.
  cbn [snd chroma_log files shown] in Hc, Hf.
  unfold App.get_vectorstore.
  rewrite (bind_run _ (show_run _ s)).
  unfold App.load_argyle_data. rewrite (bind_run _ Hload).
  unfold bind, lift, chroma_from_documents_call, show, ret.
  rewrite Hemb, Hf. fold call.
  destruct (chroma_from_documents w call (files s)) as [[vs|e] dk];
    cbn [fst snd chroma_log files]; rewrite Hc; repeat split.
Qed.

(** When the embeddings cannot be set up, the initialisation in [main]
    reports the error and gives up: the vector store is not called and
    the disk is as the corpus loader left it. *)
Theorem embeddings_failure_reported
        (s s1 : State) (d : Document) (docs : list Document) (e : exn) :
  load_argyle_data (shown (st_info "🧠 Creating knowledge base...") s)
  = (Ok (d :: docs), s1) ->
  openai_embeddings w "text-embedding-3-small" = Raise e ->
  is_Exception e = true ->
  main_initialize s
  = (Ok None,
     shown (st_error ("❌ System initialization failed: " ++ str_exn e)%string) s1) /\
  chroma_log s1 = chroma_log s /\
  files s1 = files s.
Proof.
  intros Hload Hemb He.
  destruct (load_data_store get_argyle_urls
              (shown (st_info "🧠 Creating knowledge base...") s)) as [Hc Hf].
  unfold App.load_argyle_data in Hload. rewrite Hload in Hc, Hf.
  cbn [snd chroma_log files shown] in Hc, Hf.
  split; [|split; assumption].
  assert (Hg : get_vectorstore s = (Raise e, s1)).
  { unfold App.get_vectorstore.
    rewrite (bind_run _ (show_run _ s)).
    unfold App.load_argyle_data. rewrite (bind_run _ Hload).
    unfold bind at 1. unfold lift at 1. rewrite Hemb. reflexivity. }
  unfold App.main_initialize, try_except_Exception, bind at 1.
  rewrite Hg, He. reflexivity.
Qed.

End Store.

(** ** The top level *)

Lemma quiet_refl (s : State) : quiet s s.
Proof. repeat split. Qed.

Lemma quiet_trans (a b c : State) : quiet a b -> quiet b c -> quiet a c.
Proof. unfold quiet. intros (?&?&?&?) (?&?&?&?). repeat split; congruence. Qed.

Lemma quiet_shown (wd : widget) (s : State) : quiet s (shown wd s).
Proof. repeat split. Qed.

Lemma no_Exception_ret {A} (a : A) : raises_no_Exception (ret a).
Proof. intros s e s'. discriminate. Qed.

Lemma no_Exception_show (wd : widget) : raises_no_Exception (show wd).
Proof. intros s e s'. discriminate. Qed.

Lemma no_Exception_bind {A B} (m : M A) (k : A -> M B) :
  raises_no_Exception m -> (forall a, raises_no_Exception (k a)) ->
  raises_no_Exception (bind m k).
Proof.
  intros Hm Hk s e s'. unfold bind.
  destruct (m s) as [[a|e0] s1] eqn:E.
  - apply Hk.
  - intros [= <- <-]. eapply Hm, E.
Qed.

Lemma no_Exception_try {A} (body : M A) (handler : exn -> M A) :
  (forall e, raises_no_Exception (handler e)) ->
  raises_no_Exception (try_except_Exception body handler).
Proof.
  intros Hh s e s'. unfold try_except_Exception.
  destruct (body s) as [[a|e0] s1]; [discriminate|].
  destruct (is_Exception e0) eqn:E.
  - apply Hh.
  - intros [= <- <-]. exact E.
Qed.

Lemma show_sources_run (docs : list Document) :
  forall i s,
    show_sources i docs s
    = (Ok tt, fold_left (fun st wd => shown wd st) (source_lines i docs) s).
Proof.
  induction docs as [|d docs IH]; intros i s; [reflexivity|].
  cbn [show_sources source_lines fold_left].
  rewrite (bind_run _ (show_run _ s)). apply IH.
Qed.

Lemma fold_shown (ws : list widget) :
  forall s, let s' := fold_left (fun st wd => shown wd st) ws s in
            ui s' = ui s ++ ws /\ quiet s s'.
Proof.
  induction ws as [|wd ws IH]; intros s; cbn [fold_left].
  - split; [now rewrite app_nil_r | apply quiet_refl].
  - destruct (IH (shown wd s)) as [Hu Hq]. split.
    + rewrite Hu. cbn [ui shown]. now rewrite <- app_assoc.
    + eapply quiet_trans; [apply quiet_shown | exact Hq].
Qed.

Lemma source_lines_length (docs : list Document) :
  forall i, List.length (source_lines i docs) = List.length docs.
Proof. induction docs as [|d docs IH]; intros i; simpl; [|rewrite IH]; reflexivity. Qed.

Section TopLevel.

Variable unicode_isalnum : char -> bool.
Variable w : World.

Local Abbreviation get_vectorstore := (get_vectorstore unicode_isalnum w).
Local Abbreviation main_initialize := (main_initialize unicode_isalnum w).
Local Abbreviation main := (main unicode_isalnum w).
Local Abbreviation app := (app unicode_isalnum w).

Lemma main_header_no_Exception (key : option string) :
  raises_no_Exception (main_header w key).
Proof.
  unfold main_header.
  repeat (apply no_Exception_bind; [try apply no_Exception_show | intros ?]).
  - intros s e s'. discriminate.
  - destruct (refresh_clicked w); [|apply no_Exception_ret].
    intros s e s' [= <- _]. reflexivity.
Qed.

Lemma main_interface_no_Exception (qa : RetrievalQA) :
  raises_no_Exception (main_interface w qa).
Proof.
  unfold main_interface.
  do 2 (apply no_Exception_bind; [apply no_Exception_show | intros ?]).
  destruct (truthy _); [|apply no_Exception_ret].
  apply no_Exception_bind; [apply no_Exception_show | intros ?].
  apply no_Exception_try. intros e.
  apply no_Exception_bind; [apply no_Exception_show | intros ?].
  apply no_Exception_show.
Qed.

Lemma main_no_Exception (key : option string) : raises_no_Exception (main key).
Proof.
  unfold App.main.
  apply no_Exception_bind; [apply main_header_no_Exception | intros ?].
  apply no_Exception_bind.
  - unfold App.main_initialize. apply no_Exception_try. intros e.
    apply no_Exception_bind; [apply no_Exception_show | intros ?].
    apply no_Exception_ret.
  - intros [[qa vs]|]; [apply main_interface_no_Exception | apply no_Exception_ret].
Qed.

Lemma main_initialize_failure (s0 s1 : State) (e : exn) :
  is_Exception e = true ->
  get_vectorstore s0 = (Raise e, s1) \/
  (exists vs s2, get_vectorstore s0 = (Ok (Some vs), s2) /\
                 get_qa_chain w (Some vs) s2 = (Raise e, s1)) ->
  main_initialize s0
  = (Ok None,
     shown (st_error ("❌ System initialization failed: " ++ str_exn e)%string) s1).
Proof.
  intros He H. unfold App.main_initialize, try_except_Exception.
  destruct H as [H | (vs & s2 & H1 & H2)].
  - unfold bind at 1. rewrite H, He.
    rewrite (bind_run _ (show_run _ _)). reflexivity.
  - rewrite (bind_run _ H1). unfold bind at 1. rewrite H2, He.
    rewrite (bind_run _ (show_run _ _)). reflexivity.
Qed.

Lemma main_interface_failure (qa : RetrievalQA) (s : State) (e : exn) :
  truthy (Some (user_question w)) = true ->
  qa_invoke w qa (user_question w) = Raise e ->
  is_Exception e = true ->
  main_interface w qa s
  = (Ok tt,
     shown (st_info "💡 Please try rephrasing your question or check your API keys.")
       (shown (st_error ("❌ Error: " ++ str_exn e)%string)
          (shown (st_spinner "🔍 Searching for information...")
             (shown (st_text_input "Enter your question about Argyle ISD:"
                                   "e.g., 'Who is on the board of trustees?'")
                (shown (st_markdown "### 💬 Ask your question:") s))))).
Proof.
  intros Hq Hr He. unfold main_interface.
  rewrite (bind_run _ (show_run _ s)), (bind_run _ (show_run _ _)), Hq.
  rewrite (bind_run _ (show_run _ _)).
  unfold try_except_Exception, bind at 1, lift at 1. rewrite Hr, He.
  rewrite (bind_run _ (show_run _ _)), show_run. reflexivity.
Qed.

(** No instance of [Exception] leaves [main]: what it raises is the
    rerun asked for with the refresh button, or an interrupt or exit
    that came from outside.  An instance of [Exception] raised while
    [get_vectorstore] or [get_qa_chain] runs ends the run without an
    error, the message "System initialization failed" with its text
    being the last thing on the page; one raised by the chain on a
    question ends it without an error after the message "Error" with
    its text and the hint. *)
Theorem main_raises_no_Exception (key : option string) (s : State) :
  (forall e s', main key s = (Raise e, s') -> is_Exception e = false) /\
  (forall e s0 s1,
      is_Exception e = true ->
      main_header w key s = (Ok tt, s0) ->
      get_vectorstore s0 = (Raise e, s1) \/
      (exists vs s2, get_vectorstore s0 = (Ok (Some vs), s2) /\
                     get_qa_chain w (Some vs) s2 = (Raise e, s1)) ->
      main key s
      = (Ok tt,
         shown (st_error ("❌ System initialization failed: " ++ str_exn e)%string)
               s1)) /\
  (forall e s0 s1 qa vs,
      is_Exception e = true ->
      main_header w key s = (Ok tt, s0) ->
      main_initialize s0 = (Ok (Some (qa, vs)), s1) ->
      truthy (Some (user_question w)) = true ->
      qa_invoke w qa (user_question w) = Raise e ->
      main key s
      = (Ok tt,
         shown (st_info "💡 Please try rephrasing your question or check your API keys.")
           (shown (st_error ("❌ Error: " ++ str_exn e)%string)
              (shown (st_spinner "🔍 Searching for information...")
                 (shown (st_text_input "Enter your question about Argyle ISD:"
                                       "e.g., 'Who is on the board of trustees?'")
                    (shown (st_markdown "### 💬 Ask your question:") s1)))))).
Proof.
  split; [|split].
  - intros e s'. apply main_no_Exception.
  - intros e s0 s1 He Hh Hb. unfold App.main.
    rewrite (bind_run _ Hh), (bind_run _ (@main_initialize_failure _ _ _ He Hb)).
    reflexivity.
  - intros e s0 s1 qa vs He Hh Hi Hq Hr. unfold App.main.
    rewrite (bind_run _ Hh), (bind_run _ Hi).
    exact (@main_interface_failure qa s1 e Hq Hr He).
Qed.

(** The script ends with an uncaught instance of [Exception] exactly
    when [OPENAI_API_KEY] is missing from the environment. *)
Theorem app_raises_iff_key_absent (env : environ) (s : State) :
  (exists e s', app env s = (Raise e, s') /\ is_Exception e = true)
  <-> getenv env "OPENAI_API_KEY" = None.
Proof.
  split.
  - intros (e & s' & H & He). unfold App.app in H.
    destruct (getenv env "OPENAI_API_KEY") as [v|]; [|reflexivity].
    unfold bind, lift, environ_setitem in H.
    apply main_no_Exception in H. congruence.
  - intros H. exists (TypeError "str expected, not NoneType"), s.
    split; [apply app_key_absent, H | reflexivity].
Qed.

(** A click on the refresh button restarts the script before any work:
    no request, no pause, no call of the vector store, the disk as it
    was. *)
Theorem refresh_restarts (key : option string) (s : State) :
  refresh_clicked w = true ->
  exists s',
    main key s = (Raise RerunException, s') /\
    http_log s' = http_log s /\ sleep_log s' = sleep_log s /\
    chroma_log s' = chroma_log s /\ files s' = files s.
Proof.
  intros H.
  assert (Hf : fst (main_header w key s) = Raise RerunException).
  { unfold main_header.
    rewrite !(bind_run _ (show_run _ _)).
    rewrite (bind_run _ (path_exists_run _ _)).
    rewrite !(bind_run _ (show_run _ _)), H. reflexivity. }
  pose proof (keeps_main_header w quiet quiet_refl quiet_trans quiet_shown key s) as Hq.
  destruct (main_header w key s) as [r sh] eqn:E. cbn [fst snd] in Hf, Hq.
  subst r. exists sh. split; [|exact Hq].
  unfold App.main. unfold bind at 1. rewrite E. reflexivity.
Qed.

Lemma main_after_header (key : option string) (s : State) :
  page_grows (snd (main_header w key s)) (snd (main key s)).
Proof.
  unfold App.main. unfold bind at 1.
  destruct (main_header w key s) as [[[]|e] sh]; cbn [snd];
    [|apply page_grows_refl].
  apply keeps_bind; [exact page_grows_trans | | intros [[qa vs]|]].
  - apply keeps_main_initialize with (allowed := get_argyle_urls);
      [exact page_grows_refl | exact page_grows_trans | exact page_grows_shown
       | exact page_grows_slept | intros u s0 _; apply page_grows_sent
       | apply incl_refl | intros c s0 _; apply chroma_call_page].
  - apply keeps_main_interface;
      [exact page_grows_refl | exact page_grows_trans | exact page_grows_shown].
  - apply keeps_ret, page_grows_refl.
Qed.

Lemma main_header_page (key : option string) (s : State) :
  ui (snd (main_header w key s)) =
  ui s
  ++ [st_set_page_config "Argyle ISD AI Guide" "🎓" "wide";
      st_title "🎓 Argyle ISD AI Guide";
      st_markdown "### Ask any question about Argyle Independent School District";
      st_sidebar (st_header "📊 System Status");
      st_sidebar (if existsb (String.eqb "./chroma_db_real") (files s)
                  then st_success "💾 Database: Ready"
                  else st_info "💾 Database: Building...");
      st_sidebar (if truthy key then st_success "🔑 OpenAI: Connected"
                  else st_error "🔑 OpenAI: Not configured");
      st_sidebar (st_button "🔄 Refresh Data")].
Proof.
  unfold main_header.
  rewrite !(bind_run _ (show_run _ _)).
  rewrite (bind_run _ (path_exists_run _ _)).
  rewrite !(bind_run _ (show_run _ _)).
  destruct (refresh_clicked w); cbn [raise ret ui snd shown files];
    rewrite <- !app_assoc; reflexivity.
Qed.

(** At the end of a run the sidebar tells whether the key is set (a
    key that is missing or empty is "not configured") and whether the
    index directory was there when the run began. *)
Theorem sidebar_status (key : option string) (s : State) :
  In (st_sidebar (if truthy key then st_success "🔑 OpenAI: Connected"
                  else st_error "🔑 OpenAI: Not configured"))
     (ui (snd (main key s))) /\
  In (st_sidebar (if existsb (String.eqb "./chroma_db_real") (files s)
                  then st_success "💾 Database: Ready"
                  else st_info "💾 Database: Building..."))
     (ui (snd (main key s))).
Proof.
  destruct (main_after_header key s) as [ws Hws].
  rewrite Hws, main_header_page.
  split; apply in_or_app; left; apply in_or_app; right; cbn [In].
  - do 5 right. left. reflexivity.
  - do 4 right. left. reflexivity.
Qed.

(** An answer is followed by at most three sources: the first three
    that came back, numbered from 1, each a link to the URL of its
    document. *)
Theorem answer_cites_three (qa : RetrievalQA) (s : State) (result : QAResult) :
  truthy (Some (user_question w)) = true ->
  qa_invoke w qa (user_question w) = Ok result ->
  exists s' cited,
    main_interface w qa s = (Ok tt, s') /\
    ui s' =
      ui s
      ++ [st_markdown "### 💬 Ask your question:";
          st_text_input "Enter your question about Argyle ISD:"
                        "e.g., 'Who is on the board of trustees?'";
          st_spinner "🔍 Searching for information...";
          st_markdown "### 📝 Answer:";
          st_write (qa_result result)]
      ++ cited /\
    cited =
      match source_documents result with
      | Some (d :: ds) =>
          st_markdown "### 📚 Sources:" :: source_lines 0 (firstn 3 (d :: ds))
      | _ => []
      end /\
    (List.length cited <= 4)%nat.
Proof.
  intros Hq Hr. unfold main_interface.
  rewrite (bind_run _ (show_run _ s)), (bind_run _ (show_run _ _)), Hq.
  rewrite (bind_run _ (show_run _ _)).
  unfold try_except_Exception, bind at 1, lift at 1. rewrite Hr.
  rewrite (bind_run _ (show_run _ _)), (bind_run _ (show_run _ _)).
  destruct (source_documents result) as [[|d ds]|].
  - eexists. exists []. split; [reflexivity|]. cbn [ui shown ret snd fst].
    rewrite <- !app_assoc. repeat split. simpl. lia.
  - rewrite (bind_run _ (show_run _ _)), show_sources_run.
    match goal with |- context [fold_left _ ?ws ?s0] =>
      destruct (fold_shown ws s0) as [Hu _] end.
    eexists. eexists. split; [reflexivity|]. rewrite Hu.
    cbn [ui shown].
    rewrite <- !app_assoc. cbn [app]. split; [reflexivity|].
    split; [reflexivity|].
    apply le_n_S. rewrite source_lines_length, length_firstn. lia.
  - eexists. exists []. split; [reflexivity|]. cbn [ui shown ret snd fst].
    rewrite <- !app_assoc. repeat split. simpl. lia.
Qed.

(** A question whose answer fails is reported with the error and a
    hint, in place of an answer; the form returns. *)
Theorem query_failure_reported (qa : RetrievalQA) (s : State) (e : exn) :
  truthy (Some (user_question w)) = true ->
  qa_invoke w qa (user_question w) = Raise e ->
  is_Exception e = true ->
  exists s',
    main_interface w qa s = (Ok tt, s') /\
    ui s' =
      ui s
      ++ [st_markdown "### 💬 Ask your question:";
          st_text_input "Enter your question about Argyle ISD:"
                        "e.g., 'Who is on the board of trustees?'";
          st_spinner "🔍 Searching for information...";
          st_error ("❌ Error: " ++ str_exn e)%string;
          st_info "💡 Please try rephrasing your question or check your API keys."].
Proof.
  intros Hq Hr He.
  eexists. split; [exact (@main_interface_failure qa s e Hq Hr He)|]. cbn [ui shown].
  rewrite <- !app_assoc. reflexivity.
Qed.

End TopLevel.

(** ** More on scraping and the corpus *)

Lemma get_text_decompose (names : list string) (n : node) :
  Soup.get_text (Soup.decompose names n) = Visible.node_visible_text names n.
Proof.
  induction n as [s|s|nm cs IH] using node_tree_ind;
    try (simpl; rewrite ?app_nil_r; reflexivity).
  simpl. destruct (Soup.name_in names nm); [reflexivity|].
  simpl. rewrite app_nil_r.
  induction cs as [|c cs IHcs]; [reflexivity|].
  inversion IH as [|? ? Hc Hrest]; subst.
  simpl. rewrite flat_map_app. f_equal; [exact Hc | apply IHcs, Hrest].
Qed.

Lemma get_text_decompose_all (names : list string) (page : soup) :
  Soup.get_text (Soup.decompose_all names page) = Visible.visible_text names page.
Proof.
  unfold Soup.decompose_all, Visible.visible_text, Soup.get_text.
  induction page as [|c page IH]; [reflexivity|].
  simpl. rewrite flat_map_app. f_equal; [apply get_text_decompose | exact IH].
Qed.

Lemma raise_for_status_Ok (r : Response) :
  (status_code r < 400 \/ 600 <= status_code r)%Z ->
  raise_for_status r = Ok tt.
Proof.
  intros H. unfold raise_for_status.
  destruct ((400 <=? status_code r) && (status_code r <? 500))%Z eqn:E1.
  - apply andb_true_iff in E1. rewrite Z.leb_le, Z.ltb_lt in E1. lia.
  - destruct ((500 <=? status_code r) && (status_code r <? 600))%Z eqn:E2;
      [|reflexivity].
    apply andb_true_iff in E2. rewrite Z.leb_le, Z.ltb_lt in E2. lia.
Qed.

Section ScrapingMore.

Variable unicode_isalnum : char -> bool.
Variable w : World.

Local Abbreviation clean_text := (clean_text unicode_isalnum).
Local Abbreviation scrape_url := (scrape_url unicode_isalnum w).
Local Abbreviation scrape_each := (scrape_each unicode_isalnum w).
Local Abbreviation load_data := (load_data unicode_isalnum w).
Local Abbreviation page_record := (page_record unicode_isalnum).
Local Abbreviation attempt := (attempt unicode_isalnum w).
Local Abbreviation corpus := (corpus unicode_isalnum w).
Local Abbreviation failure := (Page.failure w).
Local Abbreviation loop_page := (Page.loop_page w).
Local Abbreviation load_page := (Page.load_page w).

(** [scrape_url] returns a record exactly when the request is
    answered, the status is below 400 or from 600 on, and the parser
    returns a tree; the record is then the one made from that tree. *)
Theorem scrape_url_record_iff (u : string) (s : State) (r : PageRecord) :
  (exists s', scrape_url u s = (Ok (Some r), s'))
  <->
  (exists resp page,
      http w (List.length (http_log s)) (request_for u) = Ok resp /\
      (status_code resp < 400 \/ 600 <= status_code resp)%Z /\
      html_parser w (response_content resp) = Ok page /\
      r = page_record u page).
Proof.
  split.
  - intros (s' & H). apply scrape_url_Some in H.
    destruct H as (resp & page & Hh & Hs & Hp & Hr & _).
    exists resp, page. repeat split; try assumption.
    apply raise_for_status_passes in Hs. lia.
  - intros (resp & page & Hh & Hs & Hp & ->).
    exists (sent (request_for u) s).
    rewrite scrape_url_run. cbv zeta.
    rewrite Hh, (raise_for_status_Ok resp Hs), Hp. reflexivity.
Qed.

(** The content of a record is the cleaned text of the page outside
    its [script] and [style] elements, cut after 5000 characters: what
    those elements hold never gets into it. *)
Theorem scrape_url_reads_visible_text (u : string) (s s' : State) (r : PageRecord) :
  scrape_url u s = (Ok (Some r), s') ->
  exists resp page,
    http w (List.length (http_log s)) (request_for u) = Ok resp /\
    html_parser w (response_content resp) = Ok page /\
    content r =
      firstn 5000 (clean_text (Visible.visible_text ["script"; "style"] page)).
Proof.
  intros H. apply scrape_url_Some in H.
  destruct H as (resp & page & Hh & _ & Hp & -> & _).
  exists resp, page. repeat split; try assumption.
  unfold Spec.page_record. cbv zeta. cbn [content].
  now rewrite get_text_decompose_all.
Qed.

Lemma scrape_url_page (u : string) (s s' : State) (r : option PageRecord) :
  scrape_url u s = (Ok r, s') ->
  ui s' =
    ui s
    ++ match failure (List.length (http_log s)) u with
       | Some e => [st_warning ("Failed to scrape " ++ u ++ ": " ++ str_exn e)%string]
       | None => []
       end /\
  (r = None <-> failure (List.length (http_log s)) u <> None) /\
  http_log s' = http_log s ++ [request_for u].
Proof.
  rewrite scrape_url_run. unfold Page.failure. cbv zeta.
  destruct (http w _ _) as [resp|e].
  - destruct (raise_for_status resp) as [[]|e].
    + destruct (html_parser w _) as [page|e].
      * intros [= <- <-]. cbn [ui sent http_log]. rewrite app_nil_r.
        repeat split; intros; congruence.
      * destruct (is_Exception e); [|discriminate].
        intros [= <- <-]. repeat split; intros; congruence.
    + intros [= <- <-]. repeat split; intros; congruence.
  - destruct (is_Exception e); [|discriminate].
    intros [= <- <-]. repeat split; intros; congruence.
Qed.

(** When [scrape_url] returns [None] it has shown one warning, with
    the URL and the text of the error that ended the fetch; when it
    returns a record it has shown nothing. *)
Theorem scrape_url_warns (u : string) (s s' : State) (r : option PageRecord) :
  scrape_url u s = (Ok r, s') ->
  match r with
  | Some _ => ui s' = ui s
  | None =>
      exists e,
        failure (List.length (http_log s)) u = Some e /\
        ui s' = ui s ++ [st_warning ("Failed to scrape " ++ u ++ ": " ++ str_exn e)%string]
  end.
Proof.
  intros H. destruct (scrape_url_page _ _ H) as (Hu & Hr & _).
  destruct r as [d|].
  - destruct (failure _ u) as [e|]; [|now rewrite app_nil_r in Hu].
    destruct Hr as [_ Hr]. discriminate Hr. discriminate.
  - destruct (failure _ u) as [e|]; [eauto|].
    destruct Hr as [Hr _]. now destruct (Hr eq_refl).
Qed.

Lemma scrape_each_page (urls : list string) :
  forall (total i : nat) (docs : list Document) (s : State)
         (docs' : list Document) (s' : State),
    scrape_each total i urls docs s = (Ok docs', s') ->
    ui s' = ui s ++ loop_page total i (List.length (http_log s)) urls /\
    sleep_log s' = sleep_log s ++ repeat (1 # 2) (List.length urls).
Proof.
  induction urls as [|u urls IH]; intros total i docs s docs' s' H.
  - simpl in H. injection H as <- <-. simpl. now rewrite !app_nil_r.
  - cbn [App.scrape_each] in H.
    apply bind_Ok in H. destruct H as ([] & s1 & H1 & H).
    rewrite show_run in H1. injection H1 as <-.
    apply bind_Ok in H. destruct H as (data & s2 & H2 & H).
    apply bind_Ok in H. destruct H as ([] & s3 & H3 & H).
    apply bind_Ok in H. destruct H as ([] & s4 & H4 & H).
    pose proof H2 as H2'. apply scrape_url_Ok in H2'.
    destruct H2' as (_ & _ & _ & Hs2 & _).
    apply scrape_url_page in H2. destruct H2 as (Hu2 & _ & Hh2).
    apply progress_Ok in H3. subst s3. injection H4 as <-.
    apply IH in H. destruct H as (Hu & Hs).
    cbn [http_log ui sleep_log shown slept] in *.
    rewrite Hu, Hs, Hu2, Hh2, Hs2. rewrite length_app. cbn [List.length].
    rewrite (Nat.add_1_r (List.length (http_log s))).
    cbn [Page.loop_page repeat]. unfold Page.url_lines.
    rewrite <- !app_assoc. cbn [app]. split; reflexivity.
Qed.

Lemma load_data_page_run (urls : list string) (s s' : State) (docs : list Document) :
  load_data urls s = (Ok docs, s') ->
  ui s' = ui s ++ load_page (List.length (http_log s)) urls docs /\
  sleep_log s' = sleep_log s ++ repeat (1 # 2) (List.length urls).
Proof.
  unfold App.load_data. intros H.
  apply bind_Ok in H. destruct H as ([] & s1 & H1 & H).
  rewrite show_run in H1. injection H1 as <-.
  apply bind_Ok in H. destruct H as ([] & s2 & H2 & H).
  rewrite show_run in H2. injection H2 as <-.
  apply bind_Ok in H. destruct H as (docs' & s3 & H3 & H).
  apply bind_Ok in H. destruct H as ([] & s4 & H4 & H).
  rewrite show_run in H4. injection H4 as <-.
  injection H as <- <-.
  apply scrape_each_page in H3. destruct H3 as (Hu & Hs).
  cbn [http_log ui sleep_log shown] in *. rewrite Hu, Hs.
  unfold Page.load_page. rewrite <- !app_assoc. split; reflexivity.
Qed.

(** When [load_argyle_data] returns, it has added to the page: the
    opening line, the progress bar at 0, then for each URL its line,
    one warning with the error when the fetch of that URL failed (and
    none otherwise, also when the page had no text), and its progress;
    at the end the line with the number of documents it returns. *)
Theorem load_data_page (urls : list string) (s s' : State) (docs : list Document) :
  load_data urls s = (Ok docs, s') ->
  ui s' = ui s ++ load_page (List.length (http_log s)) urls docs.
Proof. intros H. apply load_data_page_run, H. Qed.

(** A run over [n] URLs pauses [n] times, half a second each. *)
Theorem load_data_pauses (urls : list string) (s s' : State) (docs : list Document) :
  load_data urls s = (Ok docs, s') ->
  sleep_log s' = sleep_log s ++ repeat (1 # 2) (List.length urls).
Proof. intros H. apply load_data_page_run in H. apply H. Qed.

Lemma corpus_In (urls : list string) :
  forall n i u d,
    nth_error urls i = Some u ->
    usable (attempt (n + i) u) = Some d ->
    In (to_document d) (corpus n urls).
Proof.
  induction urls as [|v urls IH]; intros n i u d Hi Hd.
  - destruct i; discriminate.
  - simpl. apply in_or_app. destruct i as [|i].
    + injection Hi as ->. rewrite Nat.add_0_r in Hd. left.
      unfold Spec.contribution. rewrite Hd. now left.
    + right. apply (IH (S n) i u d Hi).
      now replace (S n + i)%nat with (n + S i)%nat by lia.
Qed.

(** A page that was fetched and has text is in the corpus, whatever
    happens to the other URLs. *)
Theorem fetched_page_is_kept (urls : list string) (s : State)
        (i : nat) (u : string) (d : PageRecord) :
  raises_only_Exception w ->
  nth_error urls i = Some u ->
  attempt (List.length (http_log s) + i) u = Some d ->
  (0 < List.length (content d))%nat ->
  exists docs s',
    load_data urls s = (Ok docs, s') /\
    In {| page_content := content d;
          metadata := {| source := u; doc_title := title d |} |} docs.
Proof.
  intros Hw Hi Hd Hc.
  destruct (load_data_returns unicode_isalnum urls s Hw) as (docs & s' & H).
  exists docs, s'. split; [exact H|].
  apply load_data_Ok in H. destruct H as (-> & _).
  assert (Hu : url d = u).
  { revert Hd. unfold Spec.attempt.
    destruct (http w _ _) as [resp|e]; [|discriminate].
    destruct (raise_for_status resp); [|discriminate].
    destruct (html_parser w _); [|discriminate].
    intros [= <-]. reflexivity. }
  rewrite <- Hu at 1. change (In (to_document d) (corpus (List.length (http_log s)) urls)).
  eapply corpus_In; [exact Hi|].
  rewrite Hd. unfold usable. destruct (content d); [simpl in Hc; lia | reflexivity].
Qed.

End ScrapingMore.

(** ** The launcher *)


Lemma print_run (encodes : string -> bool) (text : string) (out : list string) :
  encodes text = true ->
  Launcher.print encodes text out = (Some tt, out ++ [text]).
Proof. unfold Launcher.print. intros ->. reflexivity. Qed.

Lemma and_then_run {A B} (m : Launcher.Script A) (k : A -> Launcher.Script B)
      (out out1 : list string) (a : A) :
  m out = (Some a, out1) -> Launcher.and_then m k out = k a out1.
Proof. unfold Launcher.and_then. intros ->. reflexivity. Qed.
Arguments and_then_run {A B m} k {out out1 a} _.




(** ** The chain that answers *)

Section Chain.

Variable unicode_isalnum : char -> bool.
Variable w : World.

Local Abbreviation get_vectorstore := (get_vectorstore unicode_isalnum w).
Local Abbreviation main_initialize := (main_initialize unicode_isalnum w).

Lemma get_vectorstore_Some (s s' : State) (vs : Chroma) :
  get_vectorstore s = (Ok (Some vs), s') ->
  exists docs s1 emb,
    load_argyle_data unicode_isalnum w
      (shown (st_info "🧠 Creating knowledge base...") s) = (Ok docs, s1) /\
    (0 < List.length docs)%nat /\
    openai_embeddings w "text-embedding-3-small" = Ok emb /\
    chroma_from_documents w
      {| documents := docs; embedding := emb;
         collection_name := "argyleisd_real";
         persist_directory := "./chroma_db_real" |} (files s)
    = (Ok vs, files s') /\
    chroma_log s'
    = chroma_log s ++ [{| documents := docs; embedding := emb;
                          collection_name := "argyleisd_real";
                          persist_directory := "./chroma_db_real" |}].
Proof.
  unfold App.get_vectorstore. intros H.
  apply bind_Ok in H. destruct H as ([] & s1 & H1 & H).
  rewrite show_run in H1. injection H1 as <-.
  apply bind_Ok in H. destruct H as (docs & s2 & H2 & H).
  pose proof (load_data_store unicode_isalnum w get_argyle_urls
                (shown (st_info "🧠 Creating knowledge base...") s)) as [Hc Hf].
  unfold App.load_argyle_data in H2. rewrite H2 in Hc, Hf.
  cbn [snd chroma_log files shown] in Hc, Hf.
  exists docs, s2.
  destruct docs as [|d docs].
  - apply bind_Ok in H. destruct H as ([] & s3 & _ & H). discriminate.
  - apply bind_Ok in H. destruct H as (emb & s3 & H3 & H).
    unfold lift in H3. injection H3 as H3 <-.
    apply bind_Ok in H. destruct H as (v & s4 & H4 & H).
    apply bind_Ok in H. destruct H as ([] & s5 & H5 & H).
    rewrite show_run in H5. injection H5 as <-. injection H as <- <-.
    unfold chroma_from_documents_call in H4. rewrite Hf in H4.
    exists emb. split; [exact H2|]. split; [simpl; lia|]. split; [exact H3|].
    destruct (chroma_from_documents w _ (files s)) as [r dk].
    injection H4 as -> <-. cbn [chroma_log files shown]. rewrite Hc.
    split; reflexivity.
Qed.

(** When the initialisation in [main] succeeds, the chain it hands to
    the question form is built on the store that
    [Chroma.from_documents] returned in this run, called once, for the
    documents [load_argyle_data] returned (at least one), the
    embeddings, the collection and the directory of the program; the
    chain has the model [ChatOpenAI] returned for gpt-4o at
    temperature 0.1 with 500 tokens, retrieves the 5 nearest
    documents, has chain type "stuff" and returns its sources. *)
Theorem initialized_chain (s s' : State) (qa : RetrievalQA) (vs : Chroma) :
  main_initialize s = (Ok (Some (qa, vs)), s') ->
  exists docs s1 emb model,
    load_argyle_data unicode_isalnum w
      (shown (st_info "🧠 Creating knowledge base...") s) = (Ok docs, s1) /\
    (0 < List.length docs)%nat /\
    openai_embeddings w "text-embedding-3-small" = Ok emb /\
    chroma_from_documents w
      {| documents := docs; embedding := emb;
         collection_name := "argyleisd_real";
         persist_directory := "./chroma_db_real" |} (files s)
    = (Ok vs, files s') /\
    chroma_log s'
    = chroma_log s ++ [{| documents := docs; embedding := emb;
                          collection_name := "argyleisd_real";
                          persist_directory := "./chroma_db_real" |}] /\
    chat_openai w {| model_name := "gpt-4o"; temperature := 1 # 10;
                     max_tokens := 500 |} = Ok model /\
    qa = {| llm := model;
            chain_type := "stuff";
            retriever_store := vs;
            retriever_k := 5;
            return_source_documents := true |}.
Proof.
  unfold App.main_initialize, try_except_Exception. intros H.
  match type of H with
  | match ?m s with _ => _ end = _ => destruct (m s) as [[a|e] s0] eqn:E
  end.
  - injection H as -> ->.
    apply bind_Ok in E. destruct E as ([v|] & s1 & Hg & E).
    + apply get_vectorstore_Some in Hg.
      destruct Hg as (docs & s2 & emb & Hl & Hd & He & Hc & Hlog).
      apply bind_Ok in E. destruct E as ([q|] & s3 & Hq & E).
      * injection E as <- <- <-.
        unfold get_qa_chain in Hq.
        apply bind_Ok in Hq. destruct Hq as (l & s4 & Hm & Hq).
        unfold lift in Hm. injection Hm as Hm <-. injection Hq as <- <-.
        exists docs, s2, emb, l. repeat split; assumption.
      * apply bind_Ok in E. destruct E as ([] & s4 & _ & E). discriminate.
    + apply bind_Ok in E. destruct E as ([] & s3 & _ & E). discriminate.
  - destruct (is_Exception e); [|discriminate].
    apply bind_Ok in H. destruct H as ([] & s3 & _ & H). discriminate.
Qed.

End Chain.

(** ** From the launcher to the application *)

Section Launch.

Variable unicode_isalnum : char -> bool.
Variable w : World.

Local Abbreviation app := (app unicode_isalnum w).

Lemma truthy_getenv (env : environ) (v : string) :
  truthy (getenv env v) = true -> exists x, getenv env v = Some x.
Proof. destruct (getenv env v) as [x|]; [eauto | discriminate]. Qed.

Lemma outcome_started (encodes : string -> bool) (dotenv : option environ)
      (env : environ) (streamlit : environ -> Launcher.subprocess_end) :
  filter (fun var => negb (truthy (getenv (effective_env dotenv env) var)))
         Launcher.required_vars = [] ->
  (forall text,
      In text (started_lines dotenv (streamlit (effective_env dotenv env))) ->
      encodes text = true) ->
  Launcher.outcome encodes dotenv env streamlit
  = {| Launcher.stdout :=
         started_lines dotenv (streamlit (effective_env dotenv env));
       Launcher.exit_status :=
         started_status (streamlit (effective_env dotenv env)) |}.
Proof.
  intros E H. unfold started_lines in *.
  assert (H0 : encodes (dotenv_line dotenv) = true)
    by (apply H, in_or_app; left; left; reflexivity).
  assert (H1 : encodes "🚀 Starting Argyle ISD AI Guide..." = true)
    by (apply H, in_or_app; left; right; left; reflexivity).
  assert (H2 : encodes "   Visit: http://localhost:8501" = true)
    by (apply H, in_or_app; left; do 2 right; left; reflexivity).
  assert (H3 : encodes "   Press Ctrl+C to stop" = true)
    by (apply H, in_or_app; left; do 3 right; left; reflexivity).
  assert (H4 : encodes "" = true)
    by (apply H, in_or_app; left; do 4 right; left; reflexivity).
  assert (Ht : forall text,
             In text match streamlit (effective_env dotenv env) with
                     | Launcher.Completed => []
                     | Launcher.Interrupted =>
                         [(Launcher.newline ++ "👋 Goodbye!")%string]
                     | Launcher.CalledProcessError e =>
                         [("❌ Error running app: " ++ e)%string]
                     | Launcher.Failed _ => []
                     end -> encodes text = true)
    by (intros text Hin; apply H, in_or_app; right; exact Hin).
  clear H. unfold Launcher.outcome, Launcher.script.
  destruct dotenv as [vars|]; cbn [effective_env dotenv_line] in *;
    rewrite (and_then_run _ (and_then_run _ (print_run _ _ _ H0)));
    unfold Launcher.done at 1; rewrite E;
    rewrite (and_then_run _ (print_run _ _ _ H1));
    rewrite (and_then_run _ (print_run _ _ _ H2));
    rewrite (and_then_run _ (print_run _ _ _ H3));
    rewrite (and_then_run _ (print_run _ _ _ H4));
    match goal with |- context [streamlit ?e] => destruct (streamlit e) end;
    cbn [started_status];
    try rewrite (and_then_run _ (print_run _ _ _ (Ht _ (or_introl eq_refl))));
    try rewrite (print_run _ _ _ (Ht _ (or_introl eq_refl)));
    unfold Launcher.done, Launcher.exit_1; rewrite <- ?app_assoc; reflexivity.
Qed.

Lemma required_vars_set (env : environ) :
  (forall v, In v Launcher.required_vars -> truthy (getenv env v) = true) ->
  filter (fun var => negb (truthy (getenv env var))) Launcher.required_vars = [].
Proof.
  intros H. unfold Launcher.required_vars. cbn [filter].
  rewrite (H "FIRECRAWL_API_KEY"%string (or_introl eq_refl)).
  rewrite (H "OPENAI_API_KEY"%string (or_intror (or_introl eq_refl))).
  reflexivity.
Qed.

(** When both required variables are set and not empty (after
    [load_dotenv()]) and the standard output can encode what the
    script prints, the launcher announces the application and runs
    Streamlit in that environment.  It prints nothing more and exits
    with 0 when Streamlit completes, says goodbye and exits with 0
    when the user interrupts, prints the error and exits with 1 on
    [CalledProcessError], and exits with 1 without a line of its own
    on any other exception of [subprocess.run], which it does not
    catch.  The application started in that environment has its API
    key: no instance of [Exception] leaves it. *)
Theorem launcher_starts (encodes : string -> bool) (dotenv : option environ)
        (env : environ) (streamlit : environ -> Launcher.subprocess_end) :
  (forall v, In v Launcher.required_vars ->
             truthy (getenv (effective_env dotenv env) v) = true) ->
  (forall text, In text (Launcher.stdout (Launcher.run dotenv env streamlit)) ->
                encodes text = true) ->
  Launcher.stdout (Launcher.outcome encodes dotenv env streamlit)
  = [dotenv_line dotenv;
     "🚀 Starting Argyle ISD AI Guide..."%string;
     "   Visit: http://localhost:8501"%string;
     "   Press Ctrl+C to stop"%string;
     ""%string]
    ++ match streamlit (effective_env dotenv env) with
       | Launcher.Completed => []
       | Launcher.Interrupted => [(Launcher.newline ++ "👋 Goodbye!")%string]
       | Launcher.CalledProcessError e => [("❌ Error running app: " ++ e)%string]
       | Launcher.Failed _ => []
       end /\
  Launcher.exit_status (Launcher.outcome encodes dotenv env streamlit)
  = match streamlit (effective_env dotenv env) with
    | Launcher.Completed => 0%Z
    | Launcher.Interrupted => 0%Z
    | Launcher.CalledProcessError _ => 1%Z
    | Launcher.Failed _ => 1%Z
    end /\
  forall s s' e,
    app (effective_env dotenv env) s = (Raise e, s') -> is_Exception e = false.
Proof.
  intros H Hen.
  pose proof (required_vars_set _ H) as E.
  unfold Launcher.run in Hen.
  rewrite (@outcome_started (fun _ => true) dotenv env streamlit E
             (fun _ _ => eq_refl)) in Hen.
  cbn [Launcher.stdout] in Hen.
  rewrite (@outcome_started encodes dotenv env streamlit E Hen).
  cbn [Launcher.stdout Launcher.exit_status].
  split; [reflexivity|]. split; [reflexivity|].
  intros s s' e He.
  pose proof (H "OPENAI_API_KEY"%string (or_intror (or_introl eq_refl))) as Ho.
  apply truthy_getenv in Ho. destruct Ho as [x Hx].
  unfold App.app in He. rewrite Hx in He.
  unfold bind, lift, environ_setitem in He.
  apply main_no_Exception in He. exact He.
Qed.

End Launch.

(** ** Runs of the rest of the program *)

Lemma get_vectorstore_indexes_corpus_witness :
  exists s1 d docs emb,
    load_argyle_data ascii_only online
      (shown (st_info "🧠 Creating knowledge base...") (initial_state []))
    = (Ok (d :: docs), s1) /\
    openai_embeddings online "text-embedding-3-small" = Ok emb /\
    chroma_log (snd (get_vectorstore ascii_only online (initial_state [])))
    = chroma_log (initial_state [])
      ++ [{| documents := d :: docs;
             embedding := emb;
             collection_name := "argyleisd_real";
             persist_directory := "./chroma_db_real" |}] /\
    files (snd (get_vectorstore ascii_only online (initial_state [])))
    = snd (chroma_from_documents online
             {| documents := d :: docs;
                embedding := emb;
                collection_name := "argyleisd_real";
                persist_directory := "./chroma_db_real" |}
             (files (initial_state []))) /\
    fst (get_vectorstore ascii_only online (initial_state []))
    = match fst (chroma_from_documents online
                   {| documents := d :: docs;
                      embedding := emb;
                      collection_name := "argyleisd_real";
                      persist_directory := "./chroma_db_real" |}
                   (files (initial_state []))) with
      | Ok vs => Ok (Some vs)
      | Raise e => Raise e
      end.
Proof.
  do 4 eexists. split; [vm_compute; reflexivity|]. split; [reflexivity|].
  eapply (@get_vectorstore_indexes_corpus ascii_only online (initial_state []));
    [vm_compute; reflexivity | reflexivity].
Defined.

Lemma embeddings_failure_reported_witness :
  exists s1 d docs,
    load_argyle_data ascii_only no_credentials
      (shown (st_info "🧠 Creating knowledge base...") (initial_state []))
    = (Ok (d :: docs), s1) /\
    openai_embeddings no_credentials "text-embedding-3-small"
    = Raise (OtherException "The api_key client option must be set") /\
    is_Exception (OtherException "The api_key client option must be set") = true /\
    main_initialize ascii_only no_credentials (initial_state [])
    = (Ok None,
       shown (st_error
                ("❌ System initialization failed: "
                 ++ str_exn (OtherException "The api_key client option must be set"))%string)
             s1) /\
    chroma_log s1 = chroma_log (initial_state []) /\
    files s1 = files (initial_state []).
Proof.
  do 3 eexists. split; [vm_compute; reflexivity|].
  split; [reflexivity|]. split; [reflexivity|].
  eapply (@embeddings_failure_reported ascii_only no_credentials (initial_state []));
    [vm_compute; reflexivity | reflexivity | reflexivity].
Defined.

Lemma main_raises_no_Exception_witness :
  (exists s',
      main ascii_only interrupted (Some "sk-1") (initial_state [])
      = (Raise KeyboardInterrupt, s') /\
      is_Exception KeyboardInterrupt = false) /\
  (exists s0 s1,
      main_header no_credentials (Some "sk-1") (initial_state []) = (Ok tt, s0) /\
      get_vectorstore ascii_only no_credentials s0
      = (Raise (OtherException "The api_key client option must be set"), s1) /\
      main ascii_only no_credentials (Some "sk-1") (initial_state [])
      = (Ok tt,
         shown (st_error
                  ("❌ System initialization failed: "
                   ++ str_exn (OtherException "The api_key client option must be set"))%string)
               s1)) /\
  (exists s0 s1 qa vs,
      main_header rate_limited (Some "sk-1") (initial_state []) = (Ok tt, s0) /\
      main_initialize ascii_only rate_limited s0 = (Ok (Some (qa, vs)), s1) /\
      truthy (Some (user_question rate_limited)) = true /\
      qa_invoke rate_limited qa (user_question rate_limited)
      = Raise (OtherException "Rate limit reached") /\
      main ascii_only rate_limited (Some "sk-1") (initial_state [])
      = (Ok tt,
         shown (st_info "💡 Please try rephrasing your question or check your API keys.")
           (shown (st_error ("❌ Error: "
                             ++ str_exn (OtherException "Rate limit reached"))%string)
              (shown (st_spinner "🔍 Searching for information...")
                 (shown (st_text_input "Enter your question about Argyle ISD:"
                                       "e.g., 'Who is on the board of trustees?'")
                    (shown (st_markdown "### 💬 Ask your question:") s1)))))).
Proof.
  split; [|split].
  - eexists. split.
    + vm_compute. reflexivity.
    + eapply (proj1 (@main_raises_no_Exception ascii_only interrupted (Some "sk-1")
                       (initial_state []))).
      vm_compute. reflexivity.
  - do 2 eexists. split; [vm_compute; reflexivity|]. split; [vm_compute; reflexivity|].
    eapply (proj1 (proj2 (@main_raises_no_Exception ascii_only no_credentials
                            (Some "sk-1") (initial_state [])))).
    + reflexivity.
    + vm_compute. reflexivity.
    + left. vm_compute. reflexivity.
  - do 4 eexists. split; [vm_compute; reflexivity|]. split; [vm_compute; reflexivity|].
    split; [reflexivity|]. split; [reflexivity|].
    eapply (proj2 (proj2 (@main_raises_no_Exception ascii_only rate_limited
                            (Some "sk-1") (initial_state [])))).
    + reflexivity.
    + vm_compute. reflexivity.
    + vm_compute. reflexivity.
    + reflexivity.
    + reflexivity.
Defined.

Lemma refresh_restarts_witness :
  refresh_clicked refreshing = true /\
  exists s',
    main ascii_only refreshing (Some "sk-1") (initial_state [])
    = (Raise RerunException, s') /\
    http_log s' = http_log (initial_state []) /\
    sleep_log s' = sleep_log (initial_state []) /\
    chroma_log s' = chroma_log (initial_state []) /\
    files s' = files (initial_state []).
Proof.
  split; [reflexivity|].
  exact (@refresh_restarts ascii_only refreshing (Some "sk-1") (initial_state [])
           eq_refl).
Defined.

Lemma answer_cites_three_witness :
  truthy (Some (user_question asking)) = true /\
  qa_invoke asking sample_chain (user_question asking)
  = Ok {| qa_result := of_string "The board meets monthly.";
          source_documents := Some five_documents |} /\
  exists s' cited,
    main_interface asking sample_chain (initial_state []) = (Ok tt, s') /\
    ui s' =
      ui (initial_state [])
      ++ [st_markdown "### 💬 Ask your question:";
          st_text_input "Enter your question about Argyle ISD:"
                        "e.g., 'Who is on the board of trustees?'";
          st_spinner "🔍 Searching for information...";
          st_markdown "### 📝 Answer:";
          st_write (of_string "The board meets monthly.")]
      ++ cited /\
    cited =
      st_markdown "### 📚 Sources:" :: source_lines 0 (firstn 3 five_documents) /\
    (List.length cited <= 4)%nat.
Proof.
  split; [reflexivity|]. split; [reflexivity|].
  exact (@answer_cites_three asking sample_chain (initial_state []) _
           eq_refl eq_refl).
Defined.

Lemma query_failure_reported_witness :
  truthy (Some (user_question rate_limited)) = true /\
  qa_invoke rate_limited sample_chain (user_question rate_limited)
  = Raise (OtherException "Rate limit reached") /\
  is_Exception (OtherException "Rate limit reached") = true /\
  exists s',
    main_interface rate_limited sample_chain (initial_state []) = (Ok tt, s') /\
    ui s' =
      ui (initial_state [])
      ++ [st_markdown "### 💬 Ask your question:";
          st_text_input "Enter your question about Argyle ISD:"
                        "e.g., 'Who is on the board of trustees?'";
          st_spinner "🔍 Searching for information...";
          st_error ("❌ Error: " ++ str_exn (OtherException "Rate limit reached"))%string;
          st_info "💡 Please try rephrasing your question or check your API keys."].
Proof.
  split; [reflexivity|]. split; [reflexivity|]. split; [reflexivity|].
  exact (@query_failure_reported rate_limited sample_chain (initial_state []) _
           eq_refl eq_refl eq_refl).
Defined.

Lemma scrape_url_reads_visible_text_witness :
  exists s',
    scrape_url ascii_only online home (initial_state [])
    = (Ok (Some sample_record), s') /\
    exists resp page,
      http online (List.length (http_log (initial_state []))) (request_for home)
      = Ok resp /\
      html_parser online (response_content resp) = Ok page /\
      content sample_record =
        firstn 5000
               (clean_text ascii_only (Visible.visible_text ["script"; "style"] page)).
Proof.
  eexists. split.
  - vm_compute. reflexivity.
  - eapply (@scrape_url_reads_visible_text ascii_only online home (initial_state [])).
    vm_compute. reflexivity.
Defined.

Lemma scrape_url_warns_witness :
  exists s',
    scrape_url ascii_only moved home (initial_state []) = (Ok None, s') /\
    exists e,
      Page.failure moved (List.length (http_log (initial_state []))) home = Some e /\
      ui s' = ui (initial_state [])
              ++ [st_warning ("Failed to scrape " ++ home ++ ": " ++ str_exn e)%string].
Proof.
  eexists. split.
  - vm_compute. reflexivity.
  - eapply (@scrape_url_warns ascii_only moved home (initial_state []) _ None).
    vm_compute. reflexivity.
Defined.

Lemma load_data_page_witness :
  exists docs s',
    load_data ascii_only flaky three_urls (initial_state []) = (Ok docs, s') /\
    ui s' = ui (initial_state [])
            ++ Page.load_page flaky (List.length (http_log (initial_state [])))
                              three_urls docs.
Proof.
  do 2 eexists. split.
  - vm_compute. reflexivity.
  - eapply (@load_data_page ascii_only flaky three_urls (initial_state [])).
    vm_compute. reflexivity.
Defined.

Lemma load_data_pauses_witness :
  exists docs s',
    load_data ascii_only flaky three_urls (initial_state []) = (Ok docs, s') /\
    sleep_log s' = sleep_log (initial_state [])
                   ++ repeat (1 # 2) (List.length three_urls).
Proof.
  do 2 eexists. split.
  - vm_compute. reflexivity.
  - eapply (@load_data_pauses ascii_only flaky three_urls (initial_state [])).
    vm_compute. reflexivity.
Defined.

Lemma fetched_page_is_kept_witness :
  raises_only_Exception flaky /\
  nth_error three_urls 1 = Some "https://www.argyleisd.com/about"%string /\
  exists d,
    attempt ascii_only flaky (List.length (http_log (initial_state [])) + 1)
            "https://www.argyleisd.com/about"
    = Some d /\
    (0 < List.length (content d))%nat /\
    exists docs s',
      load_data ascii_only flaky three_urls (initial_state []) = (Ok docs, s') /\
      In {| page_content := content d;
            metadata := {| source := "https://www.argyleisd.com/about";
                           doc_title := title d |} |} docs.
Proof.
  split; [exact flaky_raises_only_Exception|]. split; [reflexivity|].
  eexists. split; [vm_compute; reflexivity|]. split; [vm_compute; lia|].
  eapply (@fetched_page_is_kept ascii_only flaky three_urls (initial_state []) 1).
  - exact flaky_raises_only_Exception.
  - reflexivity.
  - vm_compute. reflexivity.
  - vm_compute. lia.
Defined.


Lemma initialized_chain_witness :
  exists qa vs s',
    main_initialize ascii_only online (initial_state []) = (Ok (Some (qa, vs)), s') /\
    exists docs s1 emb model,
      load_argyle_data ascii_only online
        (shown (st_info "🧠 Creating knowledge base...") (initial_state []))
      = (Ok docs, s1) /\
      (0 < List.length docs)%nat /\
      openai_embeddings online "text-embedding-3-small" = Ok emb /\
      chroma_from_documents online
        {| documents := docs; embedding := emb;
           collection_name := "argyleisd_real";
           persist_directory := "./chroma_db_real" |} (files (initial_state []))
      = (Ok vs, files s') /\
      chroma_log s'
      = chroma_log (initial_state [])
        ++ [{| documents := docs; embedding := emb;
               collection_name := "argyleisd_real";
               persist_directory := "./chroma_db_real" |}] /\
      chat_openai online {| model_name := "gpt-4o"; temperature := 1 # 10;
                            max_tokens := 500 |} = Ok model /\
      qa = {| llm := model;
              chain_type := "stuff";
              retriever_store := vs;
              retriever_k := 5;
              return_source_documents := true |}.
Proof.
  do 3 eexists. split.
  - vm_compute. reflexivity.
  - eapply (@initialized_chain ascii_only online (initial_state [])).
    vm_compute. reflexivity.
Defined.

Lemma launcher_starts_witness :
  (forall v, In v Launcher.required_vars ->
             truthy (getenv (effective_env None
                               [("FIRECRAWL_API_KEY", "fc-1"); ("OPENAI_API_KEY", "sk-1")])
                            v) = true) /\
  (forall text,
      In text (Launcher.stdout
                 (Launcher.run None
                    [("FIRECRAWL_API_KEY", "fc-1"); ("OPENAI_API_KEY", "sk-1")]
                    (fun _ => Launcher.Failed "FileNotFoundError"))) ->
      negb (String.eqb text "x") = true) /\
  Launcher.stdout
    (Launcher.outcome (fun text => negb (String.eqb text "x")) None
       [("FIRECRAWL_API_KEY", "fc-1"); ("OPENAI_API_KEY", "sk-1")]
       (fun _ => Launcher.Failed "FileNotFoundError"))
  = ["💡 Install python-dotenv to load .env files automatically"%string;
     "🚀 Starting Argyle ISD AI Guide..."%string;
     "   Visit: http://localhost:8501"%string;
     "   Press Ctrl+C to stop"%string;
     ""%string] /\
  Launcher.exit_status
    (Launcher.outcome (fun text => negb (String.eqb text "x")) None
       [("FIRECRAWL_API_KEY", "fc-1"); ("OPENAI_API_KEY", "sk-1")]
       (fun _ => Launcher.Failed "FileNotFoundError"))
  = 1%Z /\
  forall s s' e,
    app ascii_only online
        (effective_env None [("FIRECRAWL_API_KEY", "fc-1"); ("OPENAI_API_KEY", "sk-1")]) s
    = (Raise e, s') -> is_Exception e = false.
Proof.
  assert (H : forall v, In v Launcher.required_vars ->
              truthy (getenv (effective_env None
                                [("FIRECRAWL_API_KEY", "fc-1"); ("OPENAI_API_KEY", "sk-1")])
                             v) = true).
  { intros v [<-|[<-|[]]]; reflexivity. }
  assert (Hen : forall text,
             In text (Launcher.stdout
                        (Launcher.run None
                           [("FIRECRAWL_API_KEY", "fc-1"); ("OPENAI_API_KEY", "sk-1")]
                           (fun _ => Launcher.Failed "FileNotFoundError"))) ->
             negb (String.eqb text "x") = true).
  { intros text [<-|[<-|[<-|[<-|[<-|[]]]]]]; reflexivity. }
  split; [exact H|]. split; [exact Hen|].
  exact (@launcher_starts ascii_only online (fun text => negb (String.eqb text "x")) None
           [("FIRECRAWL_API_KEY", "fc-1"); ("OPENAI_API_KEY", "sk-1")]
           (fun _ => Launcher.Failed "FileNotFoundError") H Hen).
Defined.
